(** * Telegram text-to-speech worker: the request-to-audio pipeline

    A shallow embedding of [src/worker.js] (a Cloudflare Worker that answers
    Telegram webhook updates with speech synthesised by the Gemini API) and
    the properties of its WAV encoder and of its message pipeline.

    Conventions of the embedding.
    - A JavaScript string is the list of its UTF-16 code units.
    - [ArrayBuffer]s live in a heap of byte lists; a [DataView] or a
      [Uint8Array] over a buffer is the location of that buffer, so that the
      aliasing of [buffer], [view] and [wavData] in [pcmToWav] is kept.
    - An [async] function is a computation in the monad [M]: it threads the
      heap and the chronological trace of effects, and either completes
      normally or throws.  There is one task per invocation and every
      [await] is sequential, so [await] is the monad's bind.
    - The outside world (the global [fetch] and [atob]) is a parameter: the
      answer to an outbound request may depend on everything done so far.
    - Inbound data is what [request.json()] gives: an arbitrary JSON value.
      Reading a member of [undefined] or [null] throws a type error, as do
      [text.trim()] on a text that is not a string and [chatId.toString()]
      on a chat id that is [undefined] or [null].  The messages the
      Telegram Bot API delivers (a chat with an integer id, a text that is
      a string or absent) are the record [Message], embedded in JSON by
      [message_json].  The provider's answer is an arbitrary JSON value
      too, which is what the optional chaining of [generateSpeech] is
      written for.
    - Numeric arguments of [pcmToWav] are integer-valued doubles, kept as
      integers; their products are rounded to the nearest double as
      JavaScript rounds them. *)

From Stdlib Require Import ZArith Lia Strings.Byte Ascii String.
From stdpp Require Import gmap list strings.

Set Warnings "-register-all".

(** ** Bytes and little-endian integers *)

(** [ToUint8]: the conversion a typed array or a [DataView] applies to a
    stored number. *)
Definition byte_of_Z (v : Z) : byte :=
  default x00 (Byte.of_N (Z.to_N (v mod 256))).

Definition Z_of_byte (b : byte) : Z := Z.of_N (Byte.to_N b).

(** The [n] low-order bytes of [v], least significant first. *)
Fixpoint le_bytes (n : nat) (v : Z) : list byte :=
  match n with
  | O => []
  | S n' => byte_of_Z v :: le_bytes n' (v / 256)
  end.

(** What a [DataView] setter stores for an [n]-byte unsigned integer. *)
Definition uint_bytes (n : nat) (v : Z) (littleEndian : bool) : list byte :=
  if littleEndian then le_bytes n v else rev (le_bytes n v).

(** Reading a little-endian unsigned integer back. *)
Fixpoint le_value (bs : list byte) : Z :=
  match bs with
  | [] => 0
  | b :: bs' => Z_of_byte b + 256 * le_value bs'
  end.

Definition slice (off len : nat) (bs : list byte) : list byte :=
  take len (drop off bs).

Definition getUint16 (bs : list byte) (off : nat) : Z := le_value (slice off 2 bs).
Definition getUint32 (bs : list byte) (off : nat) : Z := le_value (slice off 4 bs).

(** ** JavaScript numbers *)

(** The double nearest to an integer, ties to even: integers below 2^53
    in magnitude are doubles; above, a double keeps 53 significant bits. *)
Definition round_double (z : Z) : Z :=
  let a := Z.abs z in
  if (a <? 2 ^ 53)%Z then z
  else
    let e := (Z.log2 a - 52)%Z in
    let q := (a / 2 ^ e)%Z in
    let r := (a mod 2 ^ e)%Z in
    let half := (2 ^ (e - 1))%Z in
    let q' := if (r <? half)%Z then q
              else if (half <? r)%Z then (q + 1)%Z
              else if Z.even q then q else (q + 1)%Z in
    (Z.sgn z * (q' * 2 ^ e))%Z.

(** [a * b] on integer-valued doubles.  A product of magnitude 2^1024 or
    more is an infinity; the code only multiplies a product again or
    converts it to an unsigned integer, and both give 0 from an infinity
    (and from the NaN of 0 times an infinity), so 0 stands for it. *)
Definition js_mul (a b : Z) : Z :=
  let p := round_double (a * b) in
  if (2 ^ 1024 <=? Z.abs p)%Z then 0%Z else p.

(** ** JavaScript strings *)

Definition js_string : Type := list Z.

(** An ASCII literal of the source as code units. *)
Fixpoint js (s : string) : js_string :=
  match s with
  | EmptyString => []
  | String a s' => Z.of_N (N_of_ascii a) :: js s'
  end.

(** White space and line terminators of ECMAScript, which
    [String.prototype.trim] strips. *)
Definition is_js_whitespace (c : Z) : bool :=
  ((9 <=? c) && (c <=? 13) || (c =? 32) || (c =? 160) || (c =? 5760)
   || (8192 <=? c) && (c <=? 8202) || (c =? 8232) || (c =? 8233)
   || (c =? 8239) || (c =? 8287) || (c =? 12288) || (c =? 65279))%Z.

Fixpoint trimStart (s : js_string) : js_string :=
  match s with
  | [] => []
  | c :: s' => if is_js_whitespace c then trimStart s' else s
  end.

Definition trimEnd (s : js_string) : js_string := rev (trimStart (rev s)).

Definition trim (s : js_string) : js_string := trimEnd (trimStart s).

(** ** JSON values and property access *)

(** Numbers are kept as integers: only whether a number is zero matters
    to the code. *)
Inductive json : Type :=
  | JNull
  | JBool (b : bool)
  | JNum (n : Z)
  | JStr (s : js_string)
  | JArr (items : list json)
  | JObj (fields : list (js_string * json)).

(** A JavaScript value that may be [undefined]. *)
Definition js_value : Type := option json.

(** [JSON.parse] keeps the last of several members with one name. *)
Fixpoint lookup_field (k : js_string) (fs : list (js_string * json)) : js_value :=
  match fs with
  | [] => None
  | (k', v) :: rest =>
      match lookup_field k rest with
      | Some v' => Some v'
      | None => if bool_decide (k' = k) then Some v else None
      end
  end.

(** [v.k] for a value that is neither [null] nor [undefined] and a name [k]
    that no built-in prototype defines (as are all names used here). *)
Definition get_prop (k : js_string) (v : json) : js_value :=
  match v with
  | JObj fs => lookup_field k fs
  | _ => None
  end.

(** [v[0]]: the first element of an array, the first code unit of a string,
    the member named "0" of an object. *)
Definition get_index0 (v : json) : js_value :=
  match v with
  | JArr items => head items
  | JStr (c :: _) => Some (JStr [c])
  | JObj fs => lookup_field (js "0") fs
  | _ => None
  end.

(** Optional chaining [o?.f]. *)
Definition opt_chain (o : js_value) (f : json -> js_value) : js_value :=
  match o with
  | None | Some JNull => None
  | Some v => f v
  end.

(** [undefined] and [null], on which a property access or a method call
    throws. *)
Definition nullish (o : js_value) : bool :=
  match o with
  | None | Some JNull => true
  | Some _ => false
  end.

(** Whether the conversion of a value to a string throws.  No member of a
    parsed JSON value is a function: an object with a member [toString] of
    its own hides the inherited method and cannot be converted; an array
    joins the conversions of its elements ([null] elements give the empty
    string). *)
Fixpoint ToString_throws (v : json) : bool :=
  match v with
  | JObj fs => bool_decide (is_Some (lookup_field (js "toString") fs))
  | JArr vs => existsb ToString_throws vs
  | _ => false
  end.

(** Whether [v.toString()] throws: on [undefined] and [null], and when
    the conversion does. *)
Definition toString_throws (o : js_value) : bool :=
  match o with
  | None | Some JNull => true
  | Some v => ToString_throws v
  end.

(** [v === 'literal']. *)
Definition is_string (literal : js_string) (o : js_value) : bool :=
  match o with
  | Some (JStr s) => bool_decide (s = literal)
  | _ => false
  end.

(** [ToBoolean]. *)
Definition truthy (o : js_value) : bool :=
  match o with
  | None | Some JNull => false
  | Some (JBool b) => b
  | Some (JNum n) => negb (n =? 0)%Z
  | Some (JStr s) => negb (bool_decide (s = []))
  | Some (JArr _) | Some (JObj _) => true
  end.

(** ** The outside world *)

(** Values the code throws or that reach it as rejections. *)
Inductive js_error : Type :=
  | NetworkError (code : Z)       (* the promise of the global [fetch] rejects *)
  | BodyError                     (* reading or parsing a response body rejects *)
  | InvalidCharacterError         (* [atob] on what is not base64 *)
  | RangeError                    (* a [DataView] or typed-array access out of bounds *)
  | TypeError                     (* use of a value that is not there *)
  | TelegramApiError (status : Z) (* [new Error(`Telegram API error: ${status}`)] *).

(** A [Response] of the global [fetch]: its status and what [text()] and
    [json()] resolve to ([None] when they reject). *)
Record response : Type := Response {
  status : Z;
  body_text : option js_string;
  body_json : option json
}.

(** [response.ok]: the status is in the range 200-299. *)
Definition ok (r : response) : bool :=
  ((200 <=? status r) && (status r <=? 299))%Z.

Inductive fetch_result : Type :=
  | Rejected (e : js_error)
  | Resolved (r : response).

(** The three outbound requests of the worker, with the data each carries. *)
Inductive outbound : Type :=
  | TelegramSendMessage (botToken : js_string) (chat_id : js_value) (text : js_string)
  | GeminiGenerateContent (geminiApiKey : js_string) (text : js_string)
  | TelegramSendVoice (botToken : js_string) (chat_id : js_value) (voice : list byte).

(** The calls of [console.error], by site. *)
Inductive log_entry : Type :=
  | LogError (e : js_error)
  | LogErrorHandlingMessage (e : js_error)
  | LogGeminiApiError (status : Z) (body : js_string)
  | LogNoAudioData
  | LogErrorGeneratingSpeech (e : js_error)
  | LogTelegramApiError (status : Z) (errorText : js_string).

Inductive event : Type :=
  | Fetch (req : outbound) (res : fetch_result)
  | ConsoleError (entry : log_entry).

(** The platform the worker runs on: the network behind the global [fetch],
    whose answer may depend on the effects so far, and [atob], applied to
    whatever value the response holds ([None] when it throws). *)
Record platform : Type := Platform {
  network : list event -> outbound -> fetch_result;
  atob : json -> option js_string
}.

(** ** Heap, trace and the monad of asynchronous functions *)

Definition loc : Type := positive.

Record state : Type := State {
  heap : gmap loc (list byte);
  trace : list event
}.

Inductive completion (A : Type) : Type :=
  | Normal (a : A)
  | Throw (e : js_error).
Arguments Normal {A} a.
Arguments Throw {A} e.

Definition M (A : Type) : Type := state -> completion A * state.

Definition ret {A} (a : A) : M A := fun s => (Normal a, s).

Definition bind {A B} (m : M A) (k : A -> M B) : M B :=
  fun s =>
    match m s with
    | (Normal a, s') => k a s'
    | (Throw e, s') => (Throw e, s')
    end.

Definition throw {A} (e : js_error) : M A := fun s => (Throw e, s).

(** [try { body } catch (error) { handler }]: effects of [body] up to the
    throw are kept. *)
Definition try_catch {A} (body : M A) (handler : js_error -> M A) : M A :=
  fun s =>
    match body s with
    | (Normal a, s') => (Normal a, s')
    | (Throw e, s') => handler e s'
    end.

Declare Scope js_scope.
Delimit Scope js_scope with js.
Notation "x <- m ;; k" := (bind m (fun x => k))
  (at level 100, m at next level, right associativity) : js_scope.
Notation "m ;; k" := (bind m (fun _ => k))
  (at level 100, right associativity) : js_scope.
Open Scope js_scope.

Definition emit (e : event) : M unit :=
  fun s => (Normal tt, State (heap s) (trace s ++ [e])).

Definition console_error (entry : log_entry) : M unit := emit (ConsoleError entry).

(** Allocation of a fresh buffer. *)
Definition alloc (bs : list byte) : M loc :=
  fun s =>
    let l := fresh (dom (heap s)) in
    (Normal l, State (<[l := bs]> (heap s)) (trace s)).

Definition load (l : loc) : M (list byte) :=
  fun s =>
    match heap s !! l with
    | Some bs => (Normal bs, s)
    | None => (Throw TypeError, s)
    end.

(** [buf] with the bytes [bs] written over it from offset [off]. *)
Definition splice (off : nat) (bs buf : list byte) : list byte :=
  take off buf ++ bs ++ drop (off + length bs) buf.

(** Overwriting [length bs] bytes of buffer [l] from offset [off]; out of
    bounds is a [RangeError], as for [DataView] setters and
    [TypedArray.prototype.set]. *)
Definition store (l : loc) (off : nat) (bs : list byte) : M unit :=
  fun s =>
    match heap s !! l with
    | Some buf =>
        if (off + length bs <=? length buf)%nat then
          (Normal tt, State (<[l := splice off bs buf]> (heap s)) (trace s))
        else (Throw RangeError, s)
    | None => (Throw TypeError, s)
    end.

(** ** ArrayBuffer, DataView and Uint8Array *)

Definition new_ArrayBuffer (byteLength : nat) : M loc :=
  alloc (replicate byteLength x00).

(** [new DataView(buffer)] and [new Uint8Array(buffer)] are views over the
    whole of [buffer]: they denote the same storage. *)
Definition new_DataView (buffer : loc) : M loc := ret buffer.
Definition new_Uint8Array (buffer : loc) : M loc := ret buffer.

Definition setUint8 (view : loc) (byteOffset : nat) (value : Z) : M unit :=
  store view byteOffset [byte_of_Z value].

Definition setUint16 (view : loc) (byteOffset : nat) (value : Z)
    (littleEndian : bool) : M unit :=
  store view byteOffset (uint_bytes 2 value littleEndian).

Definition setUint32 (view : loc) (byteOffset : nat) (value : Z)
    (littleEndian : bool) : M unit :=
  store view byteOffset (uint_bytes 4 value littleEndian).

(** [target.set(source, offset)]. *)
Definition Uint8Array_set (target source : loc) (offset : nat) : M unit :=
  bs <- load source ;;
  store target offset bs.

(** [array.length] of a [Uint8Array]. *)
Definition Uint8Array_length (array : loc) : M nat :=
  bs <- load array ;;
  ret (length bs).

(** [Uint8Array.from(string, c => c.charCodeAt(0))]. *)
Definition Uint8Array_from (binary : js_string) : M loc :=
  alloc (map byte_of_Z binary).

(** ** The encoder: [pcmToWav] *)

(** The loop of the local closure [writeString], from index [i]. *)
Fixpoint writeString_from (view : loc) (offset i : nat) (string : js_string) : M unit :=
  match string with
  | [] => ret tt
  | c :: rest =>
      setUint8 view (offset + i) c ;;
      writeString_from view offset (S i) rest
  end.

Definition writeString (view : loc) (offset : nat) (string : js_string) : M unit :=
  writeString_from view offset 0 string.

Definition pcmToWav (pcmData : loc) (sampleRate channels : Z) : M loc :=
  let bytesPerSample := 2%Z in
  let blockAlign := js_mul channels bytesPerSample in
  let byteRate := js_mul sampleRate blockAlign in
  dataSize <- Uint8Array_length pcmData ;;
  let fileSize := (36 + Z.of_nat dataSize)%Z in
  buffer <- new_ArrayBuffer (44 + dataSize) ;;
  view <- new_DataView buffer ;;
  writeString view 0 (js "RIFF") ;;
  setUint32 view 4 fileSize true ;;
  writeString view 8 (js "WAVE") ;;
  writeString view 12 (js "fmt ") ;;
  setUint32 view 16 16 true ;;
  setUint16 view 20 1 true ;;
  setUint16 view 22 channels true ;;
  setUint32 view 24 sampleRate true ;;
  setUint32 view 28 byteRate true ;;
  setUint16 view 32 blockAlign true ;;
  setUint16 view 34 16 true ;;
  writeString view 36 (js "data") ;;
  setUint32 view 40 (Z.of_nat dataSize) true ;;
  wavData <- new_Uint8Array buffer ;;
  Uint8Array_set wavData pcmData 44 ;;
  ret wavData.

(** ** Inbound data and configuration *)

(** The request the worker receives: its method and the value
    [request.json()] resolves to ([None] when it rejects).  The body is
    any JSON value: nothing checks that it is an update. *)
Record Request : Type := {
  method : js_string;
  json_body : option json
}.

(** The messages of the data model: a chat with an integer id and a text
    that is a string or absent.  [message_json] is such a message as the
    handler receives it. *)
Record Chat : Type := { id : Z }.

Record Message : Type := {
  chat : Chat;
  text : option js_string
}.

Definition message_json (m : Message) : json :=
  match text m with
  | Some t => JObj [(js "chat", JObj [(js "id", JNum (id (chat m)))]); (js "text", JStr t)]
  | None => JObj [(js "chat", JObj [(js "id", JNum (id (chat m)))])]
  end.

Record Env : Type := {
  TELEGRAM_BOT_TOKEN : js_string;
  GEMINI_API_KEY : js_string
}.

(** [new Response(body, { status })] as the worker answers. *)
Record Reply : Type := Reply_ {
  reply_body : js_string;
  reply_status : Z
}.

(** ** The string literals of the notifications *)

Definition welcome_text : js_string :=
  js "Send me any text and I'll convert it to speech using Gemini AI!".

Definition please_send_text : js_string :=
  js "Please send me some text to convert to speech.".

(** U+1F3B5 is the surrogate pair D83C DFB5. *)
Definition processing_text : js_string :=
  [55356; 57269]%Z ++ js " Converting text to speech...".

(** U+274C is one code unit. *)
Definition synthesis_failed_text : js_string :=
  [10060]%Z ++ js " Sorry, failed to generate speech. Please try again.".

Definition generic_error_text : js_string :=
  [10060]%Z ++ js " An error occurred while processing your request.".

(** ** The header layout

    The 44 bytes that precede the samples, field by field, for a data
    length [L], a sample rate [R] and a channel count [C]: the layout the
    encoder is compared with. *)
Definition wav_header_layout (L : nat) (R C : Z) : list byte :=
  map byte_of_Z (js "RIFF") ++ le_bytes 4 (36 + Z.of_nat L) ++
  map byte_of_Z (js "WAVE") ++
  map byte_of_Z (js "fmt ") ++ le_bytes 4 16 ++
  le_bytes 2 1 ++ le_bytes 2 C ++ le_bytes 4 R ++
  le_bytes 4 (js_mul R (js_mul C 2)) ++
  le_bytes 2 (js_mul C 2) ++ le_bytes 2 16 ++
  map byte_of_Z (js "data") ++ le_bytes 4 (Z.of_nat L).

(** ** The clients and the pipeline *)

Section Worker.

Variable P : platform.

(** [await fetch(url, init)]: the request and its outcome enter the trace. *)
Definition global_fetch (req : outbound) : M response :=
  fun s =>
    let res := network P (trace s) req in
    let s' := State (heap s) (trace s ++ [Fetch req res]) in
    match res with
    | Resolved r => (Normal r, s')
    | Rejected e => (Throw e, s')
    end.

Definition response_text (r : response) : M js_string :=
  match body_text r with
  | Some t => ret t
  | None => throw BodyError
  end.

Definition response_json (r : response) : M json :=
  match body_json r with
  | Some v => ret v
  | None => throw BodyError
  end.

(** [atob(v)]; [atob(undefined)] decodes the nine letters of "undefined",
    which is not base64. *)
Definition js_atob (v : js_value) : M js_string :=
  match v with
  | Some j =>
      match atob P j with
      | Some binary => ret binary
      | None => throw InvalidCharacterError
      end
  | None => throw InvalidCharacterError
  end.

(** [v.k], which throws on [undefined] and [null]. *)
Definition member (k : js_string) (v : js_value) : M js_value :=
  match v with
  | None | Some JNull => throw TypeError
  | Some j => ret (get_prop k j)
  end.

Definition sendMessage (chatId : js_value) (text : js_string) (botToken : js_string) : M unit :=
  global_fetch (TelegramSendMessage botToken chatId text) ;;
  ret tt.

Definition sendVoiceMessage (chatId : js_value) (audioBuffer : loc) (botToken : js_string) :
    M json :=
  (* [chatId.toString()] *)
  (if toString_throws chatId then throw TypeError else ret tt) ;;
  voice <- load audioBuffer ;;
  response <- global_fetch (TelegramSendVoice botToken chatId voice) ;;
  if negb (ok response) then
    errorText <- response_text response ;;
    console_error (LogTelegramApiError (status response) errorText) ;;
    throw (TelegramApiError (status response))
  else
    response_json response.

(** [data?.candidates?.[0]?.content?.parts?.[0]?.inlineData?.data]. *)
Definition audio_path (data : json) : js_value :=
  opt_chain (opt_chain (opt_chain (opt_chain (opt_chain (opt_chain
    (opt_chain (Some data) (get_prop (js "candidates")))
      get_index0)
      (get_prop (js "content")))
      (get_prop (js "parts")))
      get_index0)
      (get_prop (js "inlineData")))
      (get_prop (js "data")).

(** The result is the location of the WAV buffer, or [None] for [null]. *)
Definition generateSpeech (text : js_string) (geminiApiKey : js_string) : M (option loc) :=
  try_catch
    (response <- global_fetch (GeminiGenerateContent geminiApiKey text) ;;
     if negb (ok response) then
       body <- response_text response ;;
       console_error (LogGeminiApiError (status response) body) ;;
       ret None
     else
       data <- response_json response ;;
       let audioBase64 := audio_path data in
       if negb (truthy audioBase64) then
         console_error LogNoAudioData ;;
         ret None
       else
         binary <- js_atob audioBase64 ;;
         audioBuffer <- Uint8Array_from binary ;;
         wavBuffer <- pcmToWav audioBuffer 24000 1 ;;
         ret (Some wavBuffer))
    (fun error =>
       console_error (LogErrorGeneratingSpeech error) ;;
       ret None).

(** [!text || text.trim() === '']: a truthy text that is not a string has
    no [trim]. *)
Definition no_text (text : js_value) : M bool :=
  if negb (truthy text) then ret true
  else
    match text with
    | Some (JStr t) => ret (bool_decide (trim t = []))
    | _ => throw TypeError
    end.

(** The string a text is, once it is known to be one. *)
Definition string_of (text : js_value) : js_string :=
  match text with
  | Some (JStr t) => t
  | _ => []
  end.

(** The [try] statement of [handleMessage] with its [catch] clause, for
    the [chatId] and the [text] read from the message. *)
Definition handleMessage_try (chatId text : js_value) (env : Env) : M unit :=
  try_catch
    (if is_string (js "/start") text then
       sendMessage chatId welcome_text (TELEGRAM_BOT_TOKEN env)
     else
       blank <- no_text text ;;
       if (blank : bool) then
         sendMessage chatId please_send_text (TELEGRAM_BOT_TOKEN env)
       else
         sendMessage chatId processing_text (TELEGRAM_BOT_TOKEN env) ;;
         (* past the two tests above, [text] is a string *)
         audioData <- generateSpeech (string_of text) (GEMINI_API_KEY env) ;;
         match audioData with
         | None =>
             sendMessage chatId synthesis_failed_text (TELEGRAM_BOT_TOKEN env)
         | Some wav =>
             sendVoiceMessage chatId wav (TELEGRAM_BOT_TOKEN env) ;;
             ret tt
         end)
    (fun error =>
       console_error (LogErrorHandlingMessage error) ;;
       sendMessage chatId generic_error_text (TELEGRAM_BOT_TOKEN env)).

(** [message.chat.id] and [message.text] are read before the [try]: a
    message without a chat throws here, to the caller. *)
Definition handleMessage (message : json) (env : Env) : M unit :=
  chat <- member (js "chat") (Some message) ;;
  chatId <- member (js "id") chat ;;
  text <- member (js "text") (Some message) ;;
  handleMessage_try chatId text env.

Definition request_json (request : Request) : M json :=
  match json_body request with
  | Some update => ret update
  | None => throw BodyError
  end.

(** The exported [fetch(request, env)] handler. *)
Definition fetch (request : Request) (env : Env) : M Reply :=
  try_catch
    (if bool_decide (method request = js "GET") then
       ret (Reply_ (js "Bot is running!") 200)
     else if negb (bool_decide (method request = js "POST")) then
       ret (Reply_ (js "Method not allowed") 405)
     else
       update <- request_json request ;;
       message <- member (js "message") (Some update) ;;
       match message with
       | Some message' =>
           if truthy message then handleMessage message' env else ret tt
       | None => ret tt
       end ;;
       ret (Reply_ (js "OK") 200))
    (fun error =>
       console_error (LogError error) ;;
       ret (Reply_ (js "Error processing request") 500)).

(** *** The handler on the messages of the data model

    [handleMessage] on [message_json m], with the property accesses
    resolved and the tests on the text decided on the string (see
    [handleMessage_message_json] below). *)

Definition no_string (text : option js_string) : bool :=
  match text with
  | None => true
  | Some t => bool_decide (t = []) || bool_decide (trim t = [])
  end.

Definition handleMessage_of (m : Message) (env : Env) : M unit :=
  let chatId := Some (JNum (id (chat m))) in
  let text := text m in
  try_catch
    (if bool_decide (text = Some (js "/start")) then
       sendMessage chatId welcome_text (TELEGRAM_BOT_TOKEN env)
     else if no_string text then
       sendMessage chatId please_send_text (TELEGRAM_BOT_TOKEN env)
     else
       sendMessage chatId processing_text (TELEGRAM_BOT_TOKEN env) ;;
       audioData <- generateSpeech (default [] text) (GEMINI_API_KEY env) ;;
       match audioData with
       | None =>
           sendMessage chatId synthesis_failed_text (TELEGRAM_BOT_TOKEN env)
       | Some wav =>
           sendVoiceMessage chatId wav (TELEGRAM_BOT_TOKEN env) ;;
           ret tt
       end)
    (fun error =>
       console_error (LogErrorHandlingMessage error) ;;
       sendMessage chatId generic_error_text (TELEGRAM_BOT_TOKEN env)).

End Worker.

(** ** Observing a run *)

(** The effects of a run from [s] to [s'], in order. *)
Definition emitted (s s' : state) : list event :=
  drop (length (trace s)) (trace s').

Definition is_synthesis_call (e : event) : bool :=
  match e with
  | Fetch (GeminiGenerateContent _ _) _ => true
  | _ => false
  end.

Definition is_delivery_call (e : event) : bool :=
  match e with
  | Fetch (TelegramSendVoice _ _ _) _ => true
  | _ => false
  end.

(** The request of a notification to the chat of [m]. *)
Definition notify (env : Env) (m : Message) (txt : js_string) : outbound :=
  TelegramSendMessage (TELEGRAM_BOT_TOKEN env) (Some (JNum (id (chat m)))) txt.

(** The texts of the notifications requested, in order. *)
Fixpoint notifications (evs : list event) : list js_string :=
  match evs with
  | [] => []
  | Fetch (TelegramSendMessage _ _ text) _ :: rest => text :: notifications rest
  | _ :: rest => notifications rest
  end.

(** A text of white space only (the empty text included). *)
Definition whitespace_only (t : js_string) : bool := forallb is_js_whitespace t.

(** What [sendVoiceMessage] takes for a success: a status in 200-299 and a
    body that [json()] parses. *)
Definition upload_accepted (r : response) : bool :=
  ok r && match body_json r with Some _ => true | None => false end.

(** What the handler does with a completion of [handleMessage]: the reply of
    [fetch] to a POST that carries a message. *)
Definition reply_after (r : completion unit) : Reply :=
  match r with
  | Normal _ => Reply_ (js "OK") 200
  | Throw _ => Reply_ (js "Error processing request") 500
  end.

(** ** More observations *)

Definition is_request (e : event) : bool :=
  match e with
  | Fetch _ _ => true
  | ConsoleError _ => false
  end.

Definition count_events (p : event -> bool) (evs : list event) : nat :=
  length (List.filter p evs).

(** What a request made for [m] under [env] carries: the credential of
    [env] that goes with its destination, the chat of [m] and, for
    synthesis, the text of [m] as it came. *)
Definition addressed_to (env : Env) (m : Message) (e : event) : Prop :=
  match e with
  | Fetch (TelegramSendMessage tok c _) _ =>
      tok = TELEGRAM_BOT_TOKEN env /\ c = Some (JNum (id (chat m)))
  | Fetch (TelegramSendVoice tok c _) _ =>
      tok = TELEGRAM_BOT_TOKEN env /\ c = Some (JNum (id (chat m)))
  | Fetch (GeminiGenerateContent key t) _ =>
      key = GEMINI_API_KEY env /\ text m = Some t
  | ConsoleError _ => True
  end.

(** The error [handleMessage] catches when the voice upload is answered
    [res] without being a success for [sendVoiceMessage]. *)
Definition upload_error (res : fetch_result) : js_error :=
  match res with
  | Rejected e => e
  | Resolved resp =>
      if ok resp then BodyError
      else match body_text resp with
           | Some _ => TelegramApiError (status resp)
           | None => BodyError
           end
  end.

Definition upload_failed (res : fetch_result) : bool :=
  match res with
  | Rejected _ => true
  | Resolved resp => negb (upload_accepted resp)
  end.


(** ** Concrete worlds and inputs, for the examples *)

Definition env0 : Env :=
  {| TELEGRAM_BOT_TOKEN := js "bot-token"; GEMINI_API_KEY := js "api-key" |}.

Definition hello : Message :=
  {| chat := {| id := 7 |}; text := Some (js "hello") |}.

Definition start_command : Message :=
  {| chat := {| id := 7 |}; text := Some (js "/start") |}.

Definition blank : Message :=
  {| chat := {| id := 7 |}; text := Some (js "  ") |}.

Definition post (m : Message) : Request :=
  {| method := js "POST";
     json_body := Some (JObj [(js "message", message_json m)]) |}.

Definition post_without_message : Request :=
  {| method := js "POST"; json_body := Some (JObj []) |}.

(** A POST whose body is the JSON text [null]. *)
Definition post_null : Request :=
  {| method := js "POST"; json_body := Some JNull |}.

(** A provider answer that carries the base64 of the bytes 01 02 03 04. *)
Definition audio_json : json :=
  JObj [(js "candidates",
         JArr [JObj [(js "content",
                      JObj [(js "parts",
                             JArr [JObj [(js "inlineData",
                                         JObj [(js "data", JStr (js "AQIDBA=="))])]])])]])].

Definition atob0 (v : json) : option js_string :=
  match v with
  | JStr b64 => if bool_decide (b64 = js "AQIDBA==") then Some [1; 2; 3; 4]%Z else None
  | _ => None
  end.

Definition accepted : fetch_result :=
  Resolved (Response 200 (Some (js "{}")) (Some (JObj []))).

Definition refused (code : Z) : fetch_result :=
  Resolved (Response code (Some (js "refused")) None).

(** A world that answers each kind of request in one fixed way. *)
Definition scripted (on_notify on_synth on_voice : fetch_result) : platform :=
  {| network := fun _ req =>
       match req with
       | TelegramSendMessage _ _ _ => on_notify
       | GeminiGenerateContent _ _ => on_synth
       | TelegramSendVoice _ _ _ => on_voice
       end;
     atob := atob0 |}.

Definition healthy : platform :=
  scripted accepted (Resolved (Response 200 None (Some audio_json))) accepted.

Definition delivery_refused : platform :=
  scripted accepted (Resolved (Response 200 None (Some audio_json))) (refused 400).

Definition synthesis_refused : platform :=
  scripted accepted (refused 503) accepted.

Definition no_audio : platform :=
  scripted accepted (Resolved (Response 200 None (Some (JObj [])))) accepted.

Definition offline : platform :=
  scripted (Rejected (NetworkError 0)) (Rejected (NetworkError 0))
           (Rejected (NetworkError 0)).

Definition notifications_down : platform :=
  scripted (Rejected (NetworkError 0)) (Resolved (Response 200 None (Some audio_json)))
           accepted.

(** A world whose voice upload is answered 200 with a body that is not JSON. *)
Definition upload_garbled : platform :=
  scripted accepted (Resolved (Response 200 None (Some audio_json)))
           (Resolved (Response 200 (Some (js "<html>")) None)).

Definition synthesis_down : platform :=
  scripted accepted (Rejected (NetworkError 0)) accepted.

(** A provider answer with the audio in the second part only. *)
Definition audio_in_second_part : json :=
  JObj [(js "candidates",
         JArr [JObj [(js "content",
                      JObj [(js "parts",
                             JArr [JObj [(js "text", JStr (js "hi"))];
                                   JObj [(js "inlineData",
                                          JObj [(js "data", JStr (js "AQIDBA=="))])]])])]])].

Definition get_request : Request :=
  {| method := js "GET"; json_body := None |}.

Definition post_garbage : Request :=
  {| method := js "POST"; json_body := None |}.

Definition empty_state : state := State ∅ [].

(** The encoding of the bytes 01 02 03 04 at 24000 Hz, mono. *)
Definition example_wav : list byte :=
  wav_header_layout 4 24000 1 ++ [x01; x02; x03; x04].


(** * Properties *)

(** ** Numbers *)

(** Below 2^53 the multiplication of doubles is the multiplication of
    integers. *)
Lemma js_mul_exact (a b : Z) : (Z.abs (a * b) < 2 ^ 53)%Z -> js_mul a b = (a * b)%Z.
Proof.
  intros H. unfold js_mul, round_double.
  destruct (Z.ltb_spec (Z.abs (a * b)) (2 ^ 53)) as [_|Hge]; [|lia].
  destruct (Z.leb_spec (2 ^ 1024) (Z.abs (a * b))) as [Hbig|_]; [|reflexivity].
  assert ((2 ^ 53 < 2 ^ 1024)%Z) by (apply Z.pow_lt_mono_r; lia). lia.
Qed.

(** ** Bytes *)

Lemma Z_of_byte_of_Z (v : Z) : Z_of_byte (byte_of_Z v) = (v mod 256)%Z.
Proof.
  unfold Z_of_byte, byte_of_Z.
  assert (Hr : (0 <= v mod 256 < 256)%Z) by (apply Z.mod_pos_bound; lia).
  pose proof (Byte.to_of_N_option_map (Z.to_N (v mod 256))) as H.
  destruct (Byte.of_N (Z.to_N (v mod 256))) as [b|] eqn:Hb; simpl in *.
  - destruct (N.leb_spec (Z.to_N (v mod 256)) 255); [|discriminate].
    injection H as ->. lia.
  - destruct (N.leb_spec (Z.to_N (v mod 256)) 255); [discriminate|lia].
Qed.

Lemma length_le_bytes (n : nat) (v : Z) : length (le_bytes n v) = n.
Proof. revert v; induction n as [|n IH]; intros v; simpl; [reflexivity|]. now rewrite IH. Qed.

Lemma le_value_le_bytes (n : nat) (v : Z) :
  le_value (le_bytes n v) = (v mod 256 ^ Z.of_nat n)%Z.
Proof.
  revert v; induction n as [|n IH]; intros v.
  - simpl. now rewrite Z.mod_1_r.
  - cbn [le_bytes le_value]. rewrite Z_of_byte_of_Z, IH.
    rewrite Nat2Z.inj_succ, Z.pow_succ_r by lia.
    rewrite Z.rem_mul_r by lia. reflexivity.
Qed.

(** ** Buffers *)

Lemma length_splice (off : nat) (bs buf : list byte) :
  (off + length bs <= length buf)%nat -> length (splice off bs buf) = length buf.
Proof.
  intros H. unfold splice. rewrite !length_app, length_take, length_drop. lia.
Qed.

Lemma store_run (h : gmap loc (list byte)) (tr : list event) (l : loc)
    (buf bs : list byte) (off : nat) :
  (off + length bs <= length buf)%nat ->
  store l off bs (State (<[l := buf]> h) tr)
  = (Normal tt, State (<[l := splice off bs buf]> h) tr).
Proof.
  intros H. unfold store; simpl. rewrite lookup_insert_eq.
  destruct (Nat.leb_spec (off + length bs) (length buf)); [|lia].
  now rewrite insert_insert_eq.
Qed.

Lemma splice_splice_adjacent (off : nat) (bs1 bs2 buf : list byte) :
  (off + length bs1 + length bs2 <= length buf)%nat ->
  splice (off + length bs1) bs2 (splice off bs1 buf) = splice off (bs1 ++ bs2) buf.
Proof.
  intros H. unfold splice.
  rewrite take_app_ge by (rewrite length_take; lia).
  rewrite length_take, Nat.min_l by lia.
  replace (off + length bs1 - off)%nat with (length bs1 + 0)%nat by lia.
  rewrite take_app_add, take_0, app_nil_r.
  rewrite <- !app_assoc. do 3 f_equal.
  rewrite drop_app_ge by (rewrite length_take; lia).
  rewrite length_take, Nat.min_l by lia.
  rewrite drop_app_ge by lia.
  rewrite drop_drop, length_app. f_equal. lia.
Qed.

Lemma writeString_from_run (h : gmap loc (list byte)) (tr : list event) (l : loc)
    (string : js_string) (offset i : nat) (buf : list byte) :
  (offset + i + length string <= length buf)%nat ->
  writeString_from l offset i string (State (<[l := buf]> h) tr)
  = (Normal tt, State (<[l := splice (offset + i) (map byte_of_Z string) buf]> h) tr).
Proof.
  revert i buf; induction string as [|c rest IH]; intros i buf H; simpl in *.
  - unfold ret, splice. simpl. rewrite Nat.add_0_r, take_drop. reflexivity.
  - unfold bind, setUint8. rewrite store_run by (simpl; lia).
    rewrite IH by (rewrite length_splice; simpl; lia).
    do 3 f_equal.
    replace (offset + S i)%nat with (offset + i + length [byte_of_Z c])%nat by (simpl; lia).
    rewrite splice_splice_adjacent by (simpl; rewrite length_map; lia).
    reflexivity.
Qed.

Lemma splice_app_l (off : nat) (bs a b : list byte) :
  (off + length bs <= length a)%nat ->
  splice off bs (a ++ b) = splice off bs a ++ b.
Proof.
  intros H. unfold splice.
  rewrite take_app_le, drop_app_le by lia. now rewrite <- !app_assoc.
Qed.

Lemma length_uint_bytes (n : nat) (v : Z) (littleEndian : bool) :
  length (uint_bytes n v littleEndian) = n.
Proof.
  unfold uint_bytes. destruct littleEndian; rewrite ?length_rev; apply length_le_bytes.
Qed.

Lemma length_wav_header_layout (L : nat) (R C : Z) :
  length (wav_header_layout L R C) = 44%nat.
Proof. reflexivity. Qed.


(** One write of the encoder, with the length of the buffer carried along. *)
Ltac store_step :=
  lazymatch goal with
  | Hlen : length ?buf = _
    |- context [store ?l ?off ?bs {| heap := <[?l := ?buf]> ?h; trace := ?tr |}] =>
      let Hb := fresh "Hb" in
      assert (Hb : (off + length bs <= length buf)%nat)
        by (rewrite Hlen, ?length_uint_bytes; simpl; lia);
      rewrite (store_run h tr l buf bs off Hb);
      apply (length_splice off bs buf) in Hb; rewrite Hlen in Hb; clear Hlen
  | Hlen : length ?buf = _
    |- context [writeString_from ?l ?off ?i ?str
                  {| heap := <[?l := ?buf]> ?h; trace := ?tr |}] =>
      let Hb := fresh "Hb" in
      assert (Hb : (off + i + length str <= length buf)%nat)
        by (rewrite Hlen; simpl; lia);
      rewrite (writeString_from_run h tr l str off i buf Hb);
      assert (length (splice (off + i) (map byte_of_Z str) buf) = length buf)
        by (apply length_splice; rewrite length_map; exact Hb);
      clear Hb;
      lazymatch goal with
      | Hn : length (splice _ _ buf) = length buf |- _ => rewrite Hlen in Hn; clear Hlen
      end
  end; cbv beta iota.

(** The encoder, run from any state in which [pcmData] holds [pcm]: it
    allocates one fresh buffer, fills it with the header layout followed by
    [pcm], and changes nothing else. *)
Lemma pcmToWav_run (h : gmap loc (list byte)) (tr : list event) (pcmData : loc)
    (pcm : list byte) (sampleRate channels : Z) :
  h !! pcmData = Some pcm ->
  pcmToWav pcmData sampleRate channels (State h tr)
  = (Normal (fresh (dom h)),
     State (<[fresh (dom h) := wav_header_layout (length pcm) sampleRate channels ++ pcm]> h) tr).
Proof.
  intros Hp. unfold pcmToWav.
  cbv [bind Uint8Array_length load ret new_ArrayBuffer alloc new_DataView
       new_Uint8Array heap trace Uint8Array_set setUint32 setUint16 writeString].
  rewrite Hp.
  set (l := fresh (dom h)).
  assert (Hl : h !! l = None).
  { apply not_elem_of_dom. apply is_fresh. }
  pose proof (length_replicate (44 + length pcm) x00) as Hlen.
  do 13 store_step.
  rewrite lookup_insert_ne by (intros ->; congruence).
  rewrite Hp.
  store_step.
  do 3 f_equal. clear.
  cbn -[Z.mul Z.add Z.div Z.of_nat byte_of_Z js_mul].
  rewrite !drop_0, take_0, drop_replicate, Nat.sub_diag.
  simpl. rewrite app_nil_r. reflexivity.
Qed.

(** ** The encoder *)

(** Everything the encoder's output is, for any input buffer. *)
Lemma pcmToWav_output (s : state) (pcmData : loc) (pcm : list byte)
    (sampleRate channels : Z) :
  heap s !! pcmData = Some pcm ->
  let wavData := fresh (dom (heap s)) in
  let out := wav_header_layout (length pcm) sampleRate channels ++ pcm in
  pcmToWav pcmData sampleRate channels s
  = (Normal wavData, State (<[wavData := out]> (heap s)) (trace s)) /\
  wavData <> pcmData /\
  heap s !! wavData = None.
Proof.
  intros Hp. destruct s as [h tr]; simpl in *.
  assert (Hfresh : h !! fresh (dom h) = None) by (apply not_elem_of_dom, is_fresh).
  split; [now apply pcmToWav_run|]. split; [congruence|assumption].
Qed.

Lemma slice_header (off len L : nat) (R C : Z) (pcm : list byte) :
  (off + len <= 44)%nat ->
  slice off len (wav_header_layout L R C ++ pcm)
  = slice off len (wav_header_layout L R C).
Proof.
  intros H. unfold slice.
  rewrite drop_app_le by (rewrite length_wav_header_layout; lia).
  rewrite take_app_le; [reflexivity|].
  rewrite length_drop, length_wav_header_layout. lia.
Qed.

Lemma header_field_dataSize (L : nat) (R C : Z) :
  slice 40 4 (wav_header_layout L R C) = le_bytes 4 (Z.of_nat L).
Proof. reflexivity. Qed.

Lemma header_field_fileSize (L : nat) (R C : Z) :
  slice 4 4 (wav_header_layout L R C) = le_bytes 4 (36 + Z.of_nat L).
Proof. reflexivity. Qed.

Lemma header_field_byteRate (L : nat) (R C : Z) :
  slice 28 4 (wav_header_layout L R C) = le_bytes 4 (js_mul R (js_mul C 2)).
Proof. reflexivity. Qed.

Lemma header_field_blockAlign (L : nat) (R C : Z) :
  slice 32 2 (wav_header_layout L R C) = le_bytes 2 (js_mul C 2).
Proof. reflexivity. Qed.

(** C1, as amended.  For every PCM buffer of length L and all integers R
    and C such that R, C*2 and R*C*2 are below 2^53 in magnitude (where
    the products of the code are exact), [pcmToWav] returns a buffer of
    L+44 bytes: its first 44 bytes are the header layout; the little-endian
    fields read back as the values reduced to the width of the field,
    L mod 2^32 at offset 40, (36+L) mod 2^32 at offset 4, (R*C*2) mod 2^32
    at offset 28 and (C*2) mod 2^16 at offset 32, hence as L, 36+L, R*C*2
    and C*2 themselves whenever these fit the field; the bytes from 44 on
    are the input. *)
Theorem pcmToWav_header_and_samples (s : state) (pcmData : loc) (pcm : list byte)
    (sampleRate channels : Z) :
  heap s !! pcmData = Some pcm ->
  (Z.abs sampleRate < 2 ^ 53)%Z ->
  (Z.abs (channels * 2) < 2 ^ 53)%Z ->
  (Z.abs (sampleRate * channels * 2) < 2 ^ 53)%Z ->
  exists (wavData : loc) (out : list byte) (s' : state),
    pcmToWav pcmData sampleRate channels s = (Normal wavData, s') /\
    heap s' !! wavData = Some out /\
    length out = (length pcm + 44)%nat /\
    take 44 out = wav_header_layout (length pcm) sampleRate channels /\
    slice 40 4 out = le_bytes 4 (Z.of_nat (length pcm)) /\
    slice 4 4 out = le_bytes 4 (36 + Z.of_nat (length pcm)) /\
    getUint32 out 40 = (Z.of_nat (length pcm) mod 2 ^ 32)%Z /\
    getUint32 out 4 = ((36 + Z.of_nat (length pcm)) mod 2 ^ 32)%Z /\
    getUint32 out 28 = ((sampleRate * channels * 2) mod 2 ^ 32)%Z /\
    getUint16 out 32 = ((channels * 2) mod 2 ^ 16)%Z /\
    ((36 + Z.of_nat (length pcm) < 2 ^ 32)%Z ->
     getUint32 out 40 = Z.of_nat (length pcm) /\
     getUint32 out 4 = (36 + Z.of_nat (length pcm))%Z) /\
    ((0 <= sampleRate * channels * 2 < 2 ^ 32)%Z ->
     getUint32 out 28 = (sampleRate * channels * 2)%Z) /\
    ((0 <= channels * 2 < 2 ^ 16)%Z ->
     getUint16 out 32 = (channels * 2)%Z) /\
    slice 44 (length pcm) out = pcm.
Proof.
  intros Hp HR HC HRC.
  destruct (pcmToWav_output s pcmData pcm sampleRate channels Hp) as (Hrun & _ & _).
  eexists _, _, _. split; [exact Hrun|]. cbn [heap].
  split; [apply lookup_insert_eq|].
  split; [rewrite length_app, length_wav_header_layout; lia|].
  split; [apply take_app_length'; reflexivity|].
  unfold getUint32, getUint16.
  rewrite !slice_header by lia.
  rewrite header_field_dataSize, header_field_fileSize, header_field_byteRate,
    header_field_blockAlign, !le_value_le_bytes.
  rewrite (js_mul_exact channels 2) by exact HC.
  rewrite (js_mul_exact sampleRate (channels * 2))
    by (replace (sampleRate * (channels * 2))%Z with (sampleRate * channels * 2)%Z by lia;
        exact HRC).
  replace (sampleRate * (channels * 2))%Z with (sampleRate * channels * 2)%Z by lia.
  change (256 ^ Z.of_nat 4)%Z with (2 ^ 32)%Z.
  change (256 ^ Z.of_nat 2)%Z with (2 ^ 16)%Z.
  repeat split; try reflexivity; intros; try (apply Z.mod_small; lia).
  unfold slice. rewrite drop_app_length' by reflexivity.
  apply firstn_all.
Qed.

(** C1, the example of the claim: the four bytes 01 02 03 04 at 24000 Hz,
    mono, give 48 bytes with 04 00 00 00 at 40-43 and 28 00 00 00 at 4-7. *)
Lemma pcmToWav_header_and_samples_witness :
  exists (wavData : loc) (out : list byte) (s' : state),
    pcmToWav 1%positive 24000 1 (State {[ 1%positive := [x01; x02; x03; x04] ]} [])
    = (Normal wavData, s') /\
    heap s' !! wavData = Some out /\
    length out = 48%nat /\
    slice 40 4 out = [x04; x00; x00; x00] /\
    slice 4 4 out = [x28; x00; x00; x00] /\
    slice 44 4 out = [x01; x02; x03; x04].
Proof.
  assert (Hp : heap (State {[ 1%positive := [x01; x02; x03; x04] ]} []) !! 1%positive
               = Some [x01; x02; x03; x04]) by (vm_compute; reflexivity).
  destruct (pcmToWav_header_and_samples _ _ _ 24000 1 Hp
              ltac:(simpl; lia) ltac:(simpl; lia) ltac:(simpl; lia))
    as (wavData & out & s' & Hrun & Hout & Hlen & _ & Hdata & Hfile & _ & _ & _ & _
        & _ & _ & _ & Hpcm).
  exists wavData, out, s'. repeat split; assumption.
Defined.

(** C1 as stated fails: with 32768 channels the block alignment is 65536,
    which the two bytes at offset 32 cannot hold; they read as 0. *)
Lemma pcmToWav_blockAlign_counterexample :
  exists (wavData : loc) (out : list byte) (s' : state),
    pcmToWav 1%positive 24000 32768 (State {[ 1%positive := [] ]} [])
    = (Normal wavData, s') /\
    heap s' !! wavData = Some out /\
    getUint16 out 32 = 0%Z /\
    getUint16 out 32 <> (32768 * 2)%Z.
Proof.
  assert (Hp : heap (State {[ 1%positive := [] ]} []) !! 1%positive = Some [])
    by (vm_compute; reflexivity).
  destruct (pcmToWav_output _ _ _ 24000 32768 Hp)
    as (Hrun & _ & _).
  eexists _, _, _. split; [exact Hrun|]. cbn [heap].
  split; [apply lookup_insert_eq|].
  split; [reflexivity|]. vm_compute. discriminate.
Qed.

(** Beyond 2^53 the products of the code are rounded: at the sample rate
    2^53 - 1 with 3 channels the byte rate field holds f8 ff ff ff, the low
    bytes of the double nearest to the product, where the product itself
    ends in fa ff ff ff. *)
Lemma pcmToWav_rounded_byteRate :
  slice 28 4 (wav_header_layout 0 (2 ^ 53 - 1) 3) = [xf8; xff; xff; xff] /\
  le_bytes 4 ((2 ^ 53 - 1) * 3 * 2) = [xfa; xff; xff; xff].
Proof. split; vm_compute; reflexivity. Qed.

(** C9.  The output of the encoder is a function of the bytes of the input,
    the sample rate and the channel count alone: from any two states and any
    two buffers that hold the same bytes the two outputs are byte for byte
    the same; and a second invocation right after the first, on the same
    buffer, finds its input untouched and produces, in a new buffer, the
    same bytes again. *)
Theorem pcmToWav_deterministic (s1 s2 : state) (p1 p2 : loc) (pcm : list byte)
    (sampleRate channels : Z) :
  heap s1 !! p1 = Some pcm ->
  heap s2 !! p2 = Some pcm ->
  exists (w1 w2 : loc) (s1' s2' : state) (out : list byte),
    pcmToWav p1 sampleRate channels s1 = (Normal w1, s1') /\
    pcmToWav p2 sampleRate channels s2 = (Normal w2, s2') /\
    heap s1' !! w1 = Some out /\
    heap s2' !! w2 = Some out /\
    heap s1' !! p1 = Some pcm /\
    exists (w3 : loc) (s3 : state),
      pcmToWav p1 sampleRate channels s1' = (Normal w3, s3) /\
      w3 <> w1 /\
      heap s3 !! w3 = Some out /\
      heap s3 !! w1 = Some out /\
      heap s3 !! p1 = Some pcm.
Proof.
  intros H1 H2.
  destruct (pcmToWav_output s1 p1 pcm sampleRate channels H1) as (Hrun1 & Hne1 & Hf1).
  destruct (pcmToWav_output s2 p2 pcm sampleRate channels H2) as (Hrun2 & _ & _).
  set (w1 := fresh (dom (heap s1))) in *.
  set (out := wav_header_layout (length pcm) sampleRate channels ++ pcm) in *.
  set (s1' := State (<[w1 := out]> (heap s1)) (trace s1)) in *.
  assert (Hp1 : heap s1' !! p1 = Some pcm).
  { subst s1'; cbn [heap]. now rewrite lookup_insert_ne. }
  destruct (pcmToWav_output s1' p1 pcm sampleRate channels Hp1) as (Hrun3 & Hne3 & Hf3).
  eexists w1, _, s1', _, out.
  split; [exact Hrun1|]. split; [exact Hrun2|].
  split; [apply lookup_insert_eq|]. split; [apply lookup_insert_eq|].
  split; [exact Hp1|].
  eexists _, _. split; [exact Hrun3|].
  assert (Hw : fresh (dom (heap s1')) <> w1).
  { intros Heq. rewrite Heq in Hf3. subst s1'; cbn [heap] in Hf3.
    rewrite lookup_insert_eq in Hf3. discriminate. }
  split; [exact Hw|]. cbn [heap].
  split; [apply lookup_insert_eq|].
  split.
  - rewrite lookup_insert_ne by exact Hw. apply lookup_insert_eq.
  - rewrite lookup_insert_ne by exact Hne3. exact Hp1.
Qed.

(** C9 on the example input, from two different states. *)
Lemma pcmToWav_deterministic_witness :
  exists (w1 w2 : loc) (s1' s2' : state) (out : list byte),
    pcmToWav 1%positive 24000 1 (State {[ 1%positive := [x01; x02] ]} []) = (Normal w1, s1') /\
    pcmToWav 5%positive 24000 1
      (State {[ 5%positive := [x01; x02]; 2%positive := [xff] ]} []) = (Normal w2, s2') /\
    heap s1' !! w1 = Some out /\
    heap s2' !! w2 = Some out.
Proof.
  assert (H1 : heap (State {[ 1%positive := [x01; x02] ]} []) !! 1%positive
               = Some [x01; x02]) by (vm_compute; reflexivity).
  assert (H2 : heap (State {[ 5%positive := [x01; x02]; 2%positive := [xff] ]} [])
                 !! 5%positive = Some [x01; x02]) by (vm_compute; reflexivity).
  destruct (pcmToWav_deterministic _ _ _ _ _ 24000 1 H1 H2)
    as (w1 & w2 & s1' & s2' & out & Hr1 & Hr2 & Ho1 & Ho2 & _).
  exists w1, w2, s1', s2', out. repeat split; assumption.
Defined.

(** ** Texts *)

Lemma trimStart_nil (t : js_string) : trimStart t = [] <-> whitespace_only t = true.
Proof.
  unfold whitespace_only. induction t as [|c t IH]; simpl; [tauto|].
  destruct (is_js_whitespace c); simpl; [exact IH|].
  split; discriminate.
Qed.

Lemma trimStart_head (t : js_string) (c : Z) (rest : js_string) :
  trimStart t = c :: rest -> is_js_whitespace c = false.
Proof.
  induction t as [|c' t IH]; simpl; [discriminate|].
  destruct (is_js_whitespace c') eqn:Hc; [exact IH|].
  intros [= -> _]. exact Hc.
Qed.

Lemma whitespace_only_app (a b : js_string) :
  whitespace_only (a ++ b) = whitespace_only a && whitespace_only b.
Proof. apply forallb_app. Qed.

Lemma whitespace_only_rev (t : js_string) : whitespace_only (rev t) = whitespace_only t.
Proof.
  induction t as [|c t IH]; simpl; [reflexivity|].
  rewrite whitespace_only_app, IH. simpl. rewrite andb_true_r. apply andb_comm.
Qed.

(** [text.trim() === ''] holds of the texts of white space only. *)
Lemma trim_nil (t : js_string) : trim t = [] <-> whitespace_only t = true.
Proof.
  unfold trim, trimEnd. rewrite <- trimStart_nil. split.
  - intros H. apply (f_equal (@rev Z)) in H. rewrite rev_involutive in H. simpl in H.
    apply trimStart_nil in H. rewrite whitespace_only_rev in H.
    destruct (trimStart t) as [|c rest] eqn:Ht; [reflexivity|].
    apply trimStart_head in Ht. simpl in H. rewrite Ht in H. discriminate.
  - intros ->. reflexivity.
Qed.

Lemma no_string_whitespace (t : js_string) : no_string (Some t) = whitespace_only t.
Proof.
  unfold no_string. destruct (whitespace_only t) eqn:Hw.
  - apply orb_true_iff. right. apply bool_decide_eq_true. now apply trim_nil.
  - apply orb_false_iff. split; apply bool_decide_eq_false.
    + intros ->. discriminate.
    + intros H. apply trim_nil in H. congruence.
Qed.

(** ** The pipeline *)

Arguments wav_header_layout : simpl never.

Section Pipeline.

Variable P : platform.

(** *** Synthesis *)

(** Every run of [generateSpeech]: it makes one request and never throws.
    It returns a buffer exactly when the answer has a success status, parses
    as JSON, holds a truthy value at the audio path and that value decodes;
    the buffer then holds the encoding of the decoded bytes.  Otherwise it
    logs once, returns [null] and leaves the heap as it was. *)
Lemma generateSpeech_run (text geminiApiKey : js_string) (s : state) :
  let req := GeminiGenerateContent geminiApiKey text in
  let res := network P (trace s) req in
  exists (r : option loc) (s' : state) (logs : list log_entry),
    generateSpeech P text geminiApiKey s = (Normal r, s') /\
    trace s' = trace s ++ Fetch req res :: map ConsoleError logs /\
    match r with
    | None => heap s' = heap s /\ length logs = 1%nat /\
        forall resp data b64 binary,
          res = Resolved resp -> ok resp = true -> body_json resp = Some data ->
          audio_path data = Some b64 -> truthy (Some b64) = true ->
          atob P b64 = Some binary -> False
    | Some wavBuffer =>
        logs = [] /\
        exists resp data b64 binary,
          res = Resolved resp /\ ok resp = true /\ body_json resp = Some data /\
          audio_path data = Some b64 /\ truthy (Some b64) = true /\
          atob P b64 = Some binary /\
          let audioBuffer := fresh (dom (heap s)) in
          let pcm := map byte_of_Z binary in
          wavBuffer = fresh (dom (<[audioBuffer := pcm]> (heap s))) /\
          heap s' = <[wavBuffer := wav_header_layout (length pcm) 24000 1 ++ pcm]>
                      (<[audioBuffer := pcm]> (heap s))
    end.
Proof.
  intros req res. subst req res. destruct s as [h tr].
  unfold generateSpeech, try_catch, bind, global_fetch. simpl.
  destruct (network P tr (GeminiGenerateContent geminiApiKey text)) as [e | resp] eqn:Hres;
    [ eexists None, _, [_]; cbn; rewrite <- ?app_assoc;
      repeat split; try reflexivity; intros; simplify_eq | ].
  destruct (ok resp) eqn:Hok; simpl.
  - unfold response_json. destruct (body_json resp) as [data|] eqn:Hjson; simpl;
      [ | eexists None, _, [_]; cbn; rewrite <- ?app_assoc;
          repeat split; try reflexivity; intros; simplify_eq ].
    destruct (truthy (audio_path data)) eqn:Htruthy; simpl;
      [ | eexists None, _, [_]; cbn; rewrite <- ?app_assoc;
          repeat split; try reflexivity; intros; simplify_eq;
          match goal with H : audio_path _ = Some _ |- _ => rewrite H in Htruthy end;
          simpl in *; congruence ].
    destruct (audio_path data) as [b64|] eqn:Hpath; [|discriminate].
    simpl. destruct (atob P b64) as [binary|] eqn:Hatob; simpl;
      [ | eexists None, _, [_]; cbn; rewrite <- ?app_assoc;
          repeat split; try reflexivity; intros; simplify_eq ].
    unfold Uint8Array_from, alloc. simpl.
    rewrite (pcmToWav_run _ _ _ (map byte_of_Z binary)) by apply lookup_insert_eq.
    eexists (Some _), _, []. simpl. repeat split.
    exists resp, data, b64, binary. repeat split; assumption.
  - unfold response_text.
    destruct (body_text resp); simpl;
      eexists None, _, [_]; cbn; rewrite <- ?app_assoc;
      repeat split; try reflexivity; intros; simplify_eq; congruence.
Qed.

(** *** The handler on a message of the data model *)

Lemma is_string_text (l t : js_string) :
  is_string l (Some (JStr t)) = bool_decide (Some t = Some l).
Proof.
  unfold is_string. destruct (decide (t = l)) as [->|Hne].
  - now rewrite !bool_decide_eq_true_2.
  - rewrite !bool_decide_eq_false_2; [reflexivity|congruence|assumption].
Qed.

Lemma no_text_string (t : js_string) (s : state) :
  no_text (Some (JStr t)) s = (Normal (no_string (Some t)), s).
Proof.
  unfold no_text, no_string, truthy, ret. destruct t as [|c t].
  - reflexivity.
  - rewrite (bool_decide_eq_false_2 (c :: t = [])) by discriminate. reflexivity.
Qed.

Lemma handleMessage_message_json (m : Message) (env : Env) (s : state) :
  handleMessage P (message_json m) env s = handleMessage_of P m env s.
Proof.
  destruct m as [[c] [t|]]; unfold message_json; cbn [text chat id].
  - unfold handleMessage, handleMessage_try, handleMessage_of, member.
    change (get_prop (js "chat") (JObj [(js "chat", JObj [(js "id", JNum c)]); (js "text", JStr t)]))
      with (Some (JObj [(js "id", JNum c)])).
    change (get_prop (js "text") (JObj [(js "chat", JObj [(js "id", JNum c)]); (js "text", JStr t)]))
      with (Some (JStr t)).
    change (get_prop (js "id") (JObj [(js "id", JNum c)])) with (Some (JNum c)).
    cbv [bind ret try_catch]. cbn [text chat id].
    rewrite is_string_text.
    destruct (bool_decide (Some t = Some (js "/start"))); [reflexivity|].
    rewrite no_text_string. cbn [string_of default from_option Datatypes.id].
    reflexivity.
  - unfold handleMessage, handleMessage_try, handleMessage_of, member.
    change (get_prop (js "chat") (JObj [(js "chat", JObj [(js "id", JNum c)])]))
      with (Some (JObj [(js "id", JNum c)])).
    change (get_prop (js "text") (JObj [(js "chat", JObj [(js "id", JNum c)])]))
      with (@None json).
    change (get_prop (js "id") (JObj [(js "id", JNum c)])) with (Some (JNum c)).
    cbv [bind ret try_catch]. cbn [text chat id]. reflexivity.
Qed.

(** A message without a chat: reading [message.chat.id] throws, and
    nothing has been done. *)
Lemma handleMessage_no_chat (message : json) (env : Env) (s : state) :
  nullish (get_prop (js "chat") message) = true ->
  handleMessage P message env s = (Throw TypeError, s).
Proof.
  intros Hchat. unfold handleMessage, member, bind, ret, throw.
  destruct message as [| | | | |fs]; try reflexivity.
  cbn [get_prop] in *.
  destruct (lookup_field (js "chat") fs) as [[]|]; try discriminate Hchat; reflexivity.
Qed.

(** A message with a chat: the handler runs its [try] statement on what
    the message has as [chat.id] and as [text]. *)
Lemma handleMessage_chat (message chat : json) (env : Env) (s : state) :
  get_prop (js "chat") message = Some chat ->
  nullish (Some chat) = false ->
  handleMessage P message env s
  = handleMessage_try P (get_prop (js "id") chat) (get_prop (js "text") message) env s.
Proof.
  intros Hchat Hnull. unfold handleMessage, member, bind, ret, throw.
  destruct message; try discriminate Hchat. rewrite Hchat.
  destruct chat; try discriminate Hnull; reflexivity.
Qed.

(** *** Exploring the runs of [handleMessage] *)

Ltac unfold_pipeline :=
  cbv [handleMessage_of try_catch bind sendMessage sendVoiceMessage global_fetch
       toString_throws ToString_throws
       console_error emit load ret throw response_text response_json heap trace].

Ltac case_network :=
  match goal with
  | |- context [network P ?tr ?req] =>
      let H := fresh "Hnet" in destruct (network P tr req) eqn:H; cbv beta iota
  end.

Ltac case_speech :=
  match goal with
  | |- context [generateSpeech P ?t ?k ?st] =>
      let r := fresh "audioData" in
      let s2 := fresh "s" in
      let logs := fresh "logs" in
      let Hrun := fresh "Hrun" in
      let Htr := fresh "Htr" in
      let Hr := fresh "Hr" in
      destruct (generateSpeech_run t k st) as (r & s2 & logs & Hrun & Htr & Hr);
      rewrite Hrun; clear Hrun; destruct s2 as [? ?]; cbn [heap trace] in Htr, Hr;
      destruct r as [?|];
      [ destruct Hr as (-> & ? & ? & ? & ? & ? & ? & ? & ? & ? & ? & ? & ?);
        subst; rewrite ?lookup_insert_eq; cbv beta iota
      | let Hlen := fresh "Hlen" in
        destruct Hr as (? & Hlen & ?);
        destruct logs as [|? [|? ?]]; try discriminate Hlen; clear Hlen;
        subst; cbv beta iota ]
  end.

Ltac case_response :=
  match goal with
  | |- context [ok ?r] =>
      let H := fresh "Hok" in destruct (ok r) eqn:H; cbn [negb]; cbv beta iota
  | |- context [body_text ?r] =>
      let H := fresh "Htext" in destruct (body_text r) eqn:H; cbv beta iota
  | |- context [body_json ?r] =>
      let H := fresh "Hjson" in destruct (body_json r) eqn:H; cbv beta iota
  end.

Ltac explore := repeat first [case_network | case_speech | case_response].

Ltac finish_run :=
  let Heq := fresh "Heq" in
  intros Heq; apply pair_equal_spec in Heq; destruct Heq as [<- <-];
  unfold emitted; cbn [trace heap map];
  rewrite <- ?app_assoc; rewrite ?drop_app_length; cbn [app].

(** All the runs of [handleMessage], as goals [(r, s') = run -> ...]. *)
Ltac all_runs m env s :=
  cbv zeta;
  let r := fresh "r" in
  let s' := fresh "s'" in
  let Hrun := fresh "Hrun" in
  rewrite ?handleMessage_message_json;
  destruct (handleMessage_of P m env s) as [r s'] eqn:Hrun; cbn [fst snd];
  revert Hrun; destruct s as [? ?]; unfold notify; unfold_pipeline.

Ltac split_in H :=
  simpl in H; repeat (destruct H as [H|H]; try discriminate H); try contradiction.

(** C6.  When the provider answers the synthesis request with a status
    outside 200-299, [generateSpeech] returns [null]; the handler then
    requests the "failed to generate speech" notification; no buffer is
    allocated (so the encoder, which allocates its output, has not run) and
    no voice upload is requested. *)
Theorem synthesis_refused_notifies_failure (m : Message) (env : Env) (s : state)
    (key t : js_string) (resp : response) :
  let run := handleMessage P (message_json m) env s in
  In (Fetch (GeminiGenerateContent key t) (Resolved resp)) (emitted s run.2) ->
  ok resp = false ->
  (forall s1, network P (trace s1) (GeminiGenerateContent key t) = Resolved resp ->
     exists s2, generateSpeech P t key s1 = (Normal None, s2) /\ heap s2 = heap s1) /\
  (exists r0 log res rest,
     emitted s run.2
     = Fetch (TelegramSendMessage (TELEGRAM_BOT_TOKEN env) (Some (JNum (id (chat m)))) processing_text)
             (Resolved r0)
       :: Fetch (GeminiGenerateContent key t) (Resolved resp)
       :: ConsoleError log
       :: Fetch (TelegramSendMessage (TELEGRAM_BOT_TOKEN env) (Some (JNum (id (chat m))))
                   synthesis_failed_text) res
       :: rest) /\
  existsb is_delivery_call (emitted s run.2) = false /\
  heap run.2 = heap s.
Proof.
  intros run Hin Hbad. split.
  { intros s1 Hnet.
    destruct (generateSpeech_run t key s1) as (r & s2 & logs & Hrun & _ & Hr).
    destruct r as [wav|].
    - destruct Hr as (_ & resp' & ? & ? & ? & Hres & Hok & _).
      rewrite Hnet in Hres. injection Hres as <-. congruence.
    - exists s2. split; [exact Hrun|apply Hr]. }
  revert Hin. subst run. all_runs m env s.
  destruct (bool_decide (text m = Some (js "/start")));
    [|destruct (no_string (text m))]; explore; finish_run.
  all: intros Hin; split_in Hin; simplify_eq; try congruence.
  all: (split; [eexists _, _, _, _; reflexivity|split; reflexivity]).
Qed.


(** C7.  When the provider answers with a success status and a JSON body
    that has nothing at the audio path, [generateSpeech] returns [null]; the
    handler requests the failure notification; no buffer is allocated (the
    encoder has not run) and no voice upload is requested. *)
Theorem missing_audio_notifies_failure (m : Message) (env : Env) (s : state)
    (key t : js_string) (resp : response) (data : json) :
  let run := handleMessage P (message_json m) env s in
  In (Fetch (GeminiGenerateContent key t) (Resolved resp)) (emitted s run.2) ->
  ok resp = true ->
  body_json resp = Some data ->
  audio_path data = None ->
  (forall s1, network P (trace s1) (GeminiGenerateContent key t) = Resolved resp ->
     exists s2, generateSpeech P t key s1 = (Normal None, s2) /\ heap s2 = heap s1) /\
  (exists r0 log res rest,
     emitted s run.2
     = Fetch (TelegramSendMessage (TELEGRAM_BOT_TOKEN env) (Some (JNum (id (chat m)))) processing_text)
             (Resolved r0)
       :: Fetch (GeminiGenerateContent key t) (Resolved resp)
       :: ConsoleError log
       :: Fetch (TelegramSendMessage (TELEGRAM_BOT_TOKEN env) (Some (JNum (id (chat m))))
                   synthesis_failed_text) res
       :: rest) /\
  existsb is_delivery_call (emitted s run.2) = false /\
  heap run.2 = heap s.
Proof.
  intros run Hin Hgood Hjson Hpath. split.
  { intros s1 Hnet.
    destruct (generateSpeech_run t key s1) as (r & s2 & logs & Hrun & _ & Hr).
    destruct r as [wav|].
    - destruct Hr as (_ & resp' & ? & ? & ? & Hres & _ & Hj & Hp & _).
      rewrite Hnet in Hres. injection Hres as <-. congruence.
    - exists s2. split; [exact Hrun|apply Hr]. }
  revert Hin. subst run. all_runs m env s.
  destruct (bool_decide (text m = Some (js "/start")));
    [|destruct (no_string (text m))]; explore; finish_run.
  all: intros Hin; split_in Hin; simplify_eq; try congruence.
  all: (split; [eexists _, _, _, _; reflexivity|split; reflexivity]).
Qed.

(** The texts that reach synthesis. *)
Lemma valid_text (m : Message) :
  bool_decide (text m = Some (js "/start")) = false ->
  no_string (text m) = false ->
  exists t, text m = Some t /\ t <> js "/start" /\ whitespace_only t = false.
Proof.
  intros Hstart Hblank. destruct (text m) as [t|]; [|discriminate].
  exists t. apply bool_decide_eq_false in Hstart.
  rewrite no_string_whitespace in Hblank. repeat split; congruence.
Qed.

(** C8.  A run in which the voice upload is answered with a success (a
    status in 200-299 and a JSON body) is the run of a message whose text is
    neither "/start" nor blank, in which synthesis gave audio; it consists
    of the processing notification, the synthesis request and the upload of
    the encoded audio, in this order and nothing else: the handler returns
    normally and the only notification is the processing one. *)
Theorem delivered_voice_completes (m : Message) (env : Env) (s : state)
    (tok : js_string) (c : js_value) (voice : list byte) (resp : response) :
  let run := handleMessage P (message_json m) env s in
  In (Fetch (TelegramSendVoice tok c voice) (Resolved resp)) (emitted s run.2) ->
  upload_accepted resp = true ->
  run.1 = Normal tt /\
  notifications (emitted s run.2) = [processing_text] /\
  exists t r0 rs data b64 binary,
    text m = Some t /\ t <> js "/start" /\ whitespace_only t = false /\
    ok rs = true /\ body_json rs = Some data /\ audio_path data = Some b64 /\
    atob P b64 = Some binary /\
    voice = wav_header_layout (length (map byte_of_Z binary)) 24000 1
            ++ map byte_of_Z binary /\
    emitted s run.2
    = [Fetch (TelegramSendMessage (TELEGRAM_BOT_TOKEN env) (Some (JNum (id (chat m)))) processing_text)
             (Resolved r0);
       Fetch (GeminiGenerateContent (GEMINI_API_KEY env) t) (Resolved rs);
       Fetch (TelegramSendVoice tok c voice) (Resolved resp)].
Proof.
  intros run Hin Hacc. apply andb_prop in Hacc. destruct Hacc as [Hgood Hbody].
  destruct (body_json resp) as [answer|] eqn:Hanswer; [clear Hbody|discriminate].
  revert Hin. subst run. all_runs m env s.
  destruct (bool_decide (text m = Some (js "/start"))) eqn:Hstart;
    [|destruct (no_string (text m)) eqn:Hblank]; explore; finish_run.
  all: intros Hin; split_in Hin; simplify_eq; try congruence.
  destruct (valid_text m Hstart Hblank) as (t & Ht & Hns & Hws).
  rewrite Ht in *. cbn [default] in *.
  split; [reflexivity|]. split; [reflexivity|].
  eexists t, _, _, _, _, _. repeat split; try eassumption; reflexivity.
Qed.

(** *** The handler of the worker *)

(** What [fetch] does with a POST whose body parsed to a value other than
    [null]. *)
Lemma fetch_post (request : Request) (env : Env) (s : state) (update : json) :
  method request = js "POST" ->
  json_body request = Some update ->
  update <> JNull ->
  fetch P request env s
  = try_catch
      (match get_prop (js "message") update with
       | Some message' =>
           if truthy (get_prop (js "message") update)
           then handleMessage P message' env else ret tt
       | None => ret tt
       end ;;
       ret (Reply_ (js "OK") 200))
      (fun error =>
         console_error (LogError error) ;;
         ret (Reply_ (js "Error processing request") 500)) s.
Proof.
  intros Hm Hb Hu. unfold fetch, request_json.
  rewrite Hm, Hb.
  replace (bool_decide (js "POST" = js "GET")) with false by reflexivity.
  replace (bool_decide (js "POST" = js "POST")) with true by reflexivity.
  cbn [negb]. unfold member.
  destruct update; try contradiction; reflexivity.
Qed.

Lemma message_json_member (update : json) (m : Message) :
  get_prop (js "message") update = Some (message_json m) -> update <> JNull.
Proof. intros H ->. discriminate H. Qed.

Lemma message_json_truthy (m : Message) : truthy (Some (message_json m)) = true.
Proof. unfold message_json. destruct (text m); reflexivity. Qed.

(** A POST that carries a message: the reply follows the completion of
    [handleMessage]. *)
Lemma fetch_post_message (request : Request) (env : Env) (s : state)
    (update : json) (m : Message) :
  method request = js "POST" ->
  json_body request = Some update ->
  get_prop (js "message") update = Some (message_json m) ->
  (fetch P request env s).1 = Normal (reply_after (handleMessage P (message_json m) env s).1).
Proof.
  intros Hm Hb Hu.
  rewrite (fetch_post request env s update Hm Hb (message_json_member update m Hu)).
  rewrite Hu, message_json_truthy. unfold try_catch, bind.
  destruct (handleMessage P (message_json m) env s) as [[[]|e] s'] eqn:Hrun; reflexivity.
Qed.

(** C10, as amended.  A POST whose body parsed to a value other
    than [null] in which [message] is absent or falsy: the handler does
    nothing at all (the state, hence the trace of effects, is the one it
    started from) and replies 200 with the body "OK". *)
Theorem fetch_post_without_message (request : Request) (env : Env) (s : state)
    (update : json) :
  method request = js "POST" ->
  json_body request = Some update ->
  update <> JNull ->
  truthy (get_prop (js "message") update) = false ->
  fetch P request env s = (Normal (Reply_ (js "OK") 200), s) /\
  emitted s (fetch P request env s).2 = [].
Proof.
  intros Hm Hb Hn Hu.
  assert (Hrun : fetch P request env s = (Normal (Reply_ (js "OK") 200), s)).
  { rewrite (fetch_post request env s update Hm Hb Hn). rewrite Hu.
    destruct (get_prop (js "message") update); reflexivity. }
  split; [exact Hrun|]. rewrite Hrun. unfold emitted. cbn [snd]. apply drop_all.
Qed.

(** What [fetch] does with a POST whose body parsed to [null]:
    [update.message] throws, the error is logged and the reply is 500. *)
Lemma fetch_post_null (request : Request) (env : Env) (s : state) :
  method request = js "POST" ->
  json_body request = Some JNull ->
  fetch P request env s
  = (Normal (Reply_ (js "Error processing request") 500),
     {| heap := heap s; trace := trace s ++ [ConsoleError (LogError TypeError)] |}).
Proof.
  intros Hm Hb. unfold fetch, request_json.
  rewrite Hm, Hb.
  replace (bool_decide (js "POST" = js "GET")) with false by reflexivity.
  replace (bool_decide (js "POST" = js "POST")) with true by reflexivity.
  reflexivity.
Qed.

(** C5.  A message whose text is exactly "/start": the first effect is the
    request of the welcome notification; there is no synthesis request, no
    voice upload and no allocation; when the notification goes through it
    is the only effect and the handler returns normally. *)
Theorem start_command_sends_welcome (m : Message) (env : Env) (s : state) :
  text m = Some (js "/start") ->
  let run := handleMessage P (message_json m) env s in
  (exists res rest, emitted s run.2 = Fetch (notify env m welcome_text) res :: rest) /\
  existsb is_synthesis_call (emitted s run.2) = false /\
  existsb is_delivery_call (emitted s run.2) = false /\
  heap run.2 = heap s /\
  (forall resp, network P (trace s) (notify env m welcome_text) = Resolved resp ->
     run.1 = Normal tt /\
     emitted s run.2 = [Fetch (notify env m welcome_text) (Resolved resp)]).
Proof.
  intros Ht run. subst run. all_runs m env s. rewrite Ht.
  replace (bool_decide (Some (js "/start") = Some (js "/start"))) with true by reflexivity.
  explore; finish_run.
  all: repeat split; try (eexists _, _; reflexivity);
    intros; simplify_eq; reflexivity.
Qed.

Lemma blank_text (m : Message) :
  text m = None \/ (exists t, text m = Some t /\ whitespace_only t = true) ->
  bool_decide (text m = Some (js "/start")) = false /\ no_string (text m) = true.
Proof.
  intros [Hnone | (t & Ht & Hw)]; rewrite ?Hnone, ?Ht.
  - split; reflexivity.
  - split; [|now rewrite no_string_whitespace].
    apply bool_decide_eq_false. intros [= ->]. discriminate Hw.
Qed.

(** C4.  A message whose text is absent, empty or of white space only: the
    first effect is the request of the "please send text" notification;
    there is no synthesis request, no voice upload and no allocation; when
    the notification goes through it is the only effect and the handler
    returns normally.  The handler throws only when the request of that
    notification and then the request of the failure notification both
    reject, and what it throws is the second rejection. *)
Theorem blank_text_asks_for_text (m : Message) (env : Env) (s : state) :
  text m = None \/ (exists t, text m = Some t /\ whitespace_only t = true) ->
  let run := handleMessage P (message_json m) env s in
  (exists res rest, emitted s run.2 = Fetch (notify env m please_send_text) res :: rest) /\
  existsb is_synthesis_call (emitted s run.2) = false /\
  existsb is_delivery_call (emitted s run.2) = false /\
  heap run.2 = heap s /\
  (forall resp, network P (trace s) (notify env m please_send_text) = Resolved resp ->
     run.1 = Normal tt /\
     emitted s run.2 = [Fetch (notify env m please_send_text) (Resolved resp)]) /\
  (forall e, run.1 = Throw e ->
     exists e0,
       emitted s run.2
       = [Fetch (notify env m please_send_text) (Rejected e0);
          ConsoleError (LogErrorHandlingMessage e0);
          Fetch (notify env m generic_error_text) (Rejected e)]).
Proof.
  intros Ht run. subst run. destruct (blank_text m Ht) as [Hstart Hblank].
  all_runs m env s. rewrite Hstart, Hblank.
  explore; finish_run.
  all: repeat split; try (eexists _, _; reflexivity);
    intros; simplify_eq; try reflexivity; try (eexists; reflexivity).
Qed.

(** [sendMessage] never looks at the response: whatever the status of the
    answer, it completes normally. *)
Lemma sendMessage_resolved (chatId : js_value) (txt botToken : js_string) (s : state)
    (resp : response) :
  network P (trace s) (TelegramSendMessage botToken chatId txt) = Resolved resp ->
  sendMessage P chatId txt botToken s
  = (Normal tt,
     State (heap s) (trace s ++ [Fetch (TelegramSendMessage botToken chatId txt)
                                       (Resolved resp)])).
Proof.
  intros H. unfold sendMessage, bind, global_fetch, ret. now rewrite H.
Qed.

(** C3, as amended.  For a message that reaches the pipeline (a text that
    is neither "/start" nor blank), the processing notification decides as
    follows.  When its request is answered, whatever the status of the
    answer, the next effect is the synthesis request.  When its request
    rejects, the pipeline stops there: the error is logged, the failure
    notification is requested and nothing else happens (no synthesis, no
    allocation, no upload); the handler returns normally if that second
    request is answered and throws its rejection otherwise. *)
Theorem processing_notification_outcome (m : Message) (env : Env) (s : state)
    (t : js_string) :
  text m = Some t ->
  t <> js "/start" ->
  whitespace_only t = false ->
  let run := handleMessage P (message_json m) env s in
  match network P (trace s) (notify env m processing_text) with
  | Resolved r0 =>
      exists res rest,
        emitted s run.2
        = Fetch (notify env m processing_text) (Resolved r0)
          :: Fetch (GeminiGenerateContent (GEMINI_API_KEY env) t) res
          :: rest
  | Rejected e =>
      exists res,
        emitted s run.2
        = [Fetch (notify env m processing_text) (Rejected e);
           ConsoleError (LogErrorHandlingMessage e);
           Fetch (notify env m generic_error_text) res] /\
        run.1 = match res with
                | Resolved _ => Normal tt
                | Rejected e' => Throw e'
                end /\
        heap run.2 = heap s
  end.
Proof.
  intros Ht Hns Hws run. subst run.
  assert (Hstart : bool_decide (text m = Some (js "/start")) = false).
  { apply bool_decide_eq_false. congruence. }
  assert (Hblank : no_string (text m) = false).
  { rewrite Ht. now rewrite no_string_whitespace. }
  all_runs m env s. rewrite Hstart, Hblank.
  rewrite Ht. cbn [default].
  explore; finish_run.
  all: try (eexists _, _; reflexivity).
  all: eexists; repeat split; reflexivity.
Qed.

(** C2, as amended.  When the voice upload is answered with a status
    outside 200-299, [sendVoiceMessage] throws and [handleMessage] catches:
    it logs the error and requests the failure notification, which is the
    last effect of the run.  The error of the upload does not leave the
    handler: the handler returns normally when the request of the failure
    notification is answered, and [fetch] then replies 200 "OK"; only the
    rejection of that request is thrown, and [fetch] then replies 500. *)
Theorem delivery_refused_is_caught (m : Message) (env : Env) (s : state)
    (tok : js_string) (c : js_value) (voice : list byte) (resp : response) :
  let run := handleMessage P (message_json m) env s in
  In (Fetch (TelegramSendVoice tok c voice) (Resolved resp)) (emitted s run.2) ->
  ok resp = false ->
  exists e pre res,
    emitted s run.2
    = pre ++ [ConsoleError (LogErrorHandlingMessage e);
              Fetch (notify env m generic_error_text) res] /\
    In (Fetch (TelegramSendVoice tok c voice) (Resolved resp)) pre /\
    (e = TelegramApiError (status resp) \/ body_text resp = None /\ e = BodyError) /\
    run.1 = match res with
            | Resolved _ => Normal tt
            | Rejected e' => Throw e'
            end /\
    forall request update,
      method request = js "POST" ->
      json_body request = Some update ->
      get_prop (js "message") update = Some (message_json m) ->
      (fetch P request env s).1
      = Normal match res with
               | Resolved _ => Reply_ (js "OK") 200
               | Rejected _ => Reply_ (js "Error processing request") 500
               end.
Proof.
  intros run Hin Hbad.
  assert (Hfetch : forall request update,
             method request = js "POST" -> json_body request = Some update ->
             get_prop (js "message") update = Some (message_json m) ->
             (fetch P request env s).1 = Normal (reply_after run.1)).
  { intros. now apply fetch_post_message with update. }
  revert Hin Hfetch. subst run. all_runs m env s.
  destruct (bool_decide (text m = Some (js "/start")));
    [|destruct (no_string (text m))]; explore; finish_run.
  all: intros Hin Hfetch; split_in Hin; simplify_eq; try congruence.
  all: first [ eexists _, [_; _; _], _; split; [reflexivity|]
             | eexists _, [_; _; _; _], _; split; [reflexivity|] ].
  all: (split; [simpl; tauto|]).
  all: (split; [first [left; reflexivity | right; split; reflexivity]|]).
  all: (split; [reflexivity|exact Hfetch]).
Qed.

(** *** Synthesis, further *)

(** [generateSpeech] never throws: whatever the world answers, it completes
    normally after exactly one request and at most one log entry; when it
    returns [null] it has logged once and the heap is as before. *)
Theorem generateSpeech_never_throws (text geminiApiKey : js_string) (s : state) :
  let req := GeminiGenerateContent geminiApiKey text in
  exists (r : option loc) (s' : state) (logs : list log_entry),
    generateSpeech P text geminiApiKey s = (Normal r, s') /\
    emitted s s' = Fetch req (network P (trace s) req) :: map ConsoleError logs /\
    (length logs <= 1)%nat /\
    (r = None -> length logs = 1%nat /\ heap s' = heap s) /\
    (r <> None -> logs = []).
Proof.
  intros req.
  destruct (generateSpeech_run text geminiApiKey s) as (r & s' & logs & Hrun & Htr & Hr).
  exists r, s', logs. split; [exact Hrun|].
  split; [unfold emitted; rewrite Htr; apply drop_app_length|].
  destruct r as [w|].
  - destruct Hr as (-> & _).
    split; [simpl; lia|]. split; [discriminate|reflexivity].
  - destruct Hr as (Hh & Hl & _). rewrite Hl.
    split; [lia|]. split; [intros _; split; [reflexivity|exact Hh]|congruence].
Qed.

(** When the answer has a success status, parses, holds a truthy value at
    the audio path and that value decodes, [generateSpeech] returns a new
    buffer that holds the header followed by the decoded bytes, and the
    header declares one channel at 24000 Hz with 16-bit samples, whatever
    the provider sent; nothing is logged and the buffers that existed are
    as before. *)
Theorem generateSpeech_encodes_decoded_audio (text geminiApiKey : js_string) (s : state)
    (resp : response) (data b64 : json) (binary : js_string) :
  network P (trace s) (GeminiGenerateContent geminiApiKey text) = Resolved resp ->
  ok resp = true ->
  body_json resp = Some data ->
  audio_path data = Some b64 ->
  truthy (Some b64) = true ->
  atob P b64 = Some binary ->
  exists (wavBuffer : loc) (s' : state) (out : list byte),
    generateSpeech P text geminiApiKey s = (Normal (Some wavBuffer), s') /\
    heap s' !! wavBuffer = Some out /\
    heap s !! wavBuffer = None /\
    drop 44 out = map byte_of_Z binary /\
    length out = (44 + length binary)%nat /\
    getUint16 out 22 = 1%Z /\
    getUint32 out 24 = 24000%Z /\
    getUint32 out 28 = 48000%Z /\
    getUint16 out 32 = 2%Z /\
    getUint16 out 34 = 16%Z /\
    emitted s s' = [Fetch (GeminiGenerateContent geminiApiKey text) (Resolved resp)] /\
    (forall l buf, heap s !! l = Some buf -> heap s' !! l = Some buf).
Proof.
  intros Hnet Hok Hjson Hpath Htruthy Hatob.
  destruct (generateSpeech_run text geminiApiKey s) as (r & s' & logs & Hrun & Htr & Hr).
  destruct r as [w|].
  2: { destruct Hr as (_ & _ & Hno). exfalso. eapply Hno; eassumption. }
  destruct Hr as (-> & resp' & data' & b64' & binary' & Hres & _ & Hj & Hp & _ & Ha & Hw & Hh).
  rewrite Hnet in Hres. injection Hres as <-.
  rewrite Hjson in Hj. injection Hj as <-.
  rewrite Hpath in Hp. injection Hp as <-.
  rewrite Hatob in Ha. injection Ha as <-.
  cbv zeta in Hw, Hh.
  set (a := fresh (dom (heap s))) in *.
  set (pcm := map byte_of_Z binary) in *.
  assert (Ha : heap s !! a = None) by apply not_elem_of_dom, is_fresh.
  assert (Hwf : (<[a := pcm]> (heap s)) !! w = None).
  { rewrite Hw. apply not_elem_of_dom, is_fresh. }
  assert (Hwa : w <> a).
  { intros ->. rewrite lookup_insert_eq in Hwf. discriminate. }
  exists w, s', (wav_header_layout (length pcm) 24000 1 ++ pcm).
  split; [exact Hrun|]. rewrite Hh.
  split; [apply lookup_insert_eq|].
  split; [now rewrite lookup_insert_ne in Hwf by congruence|].
  split; [now rewrite drop_app_length' by reflexivity|].
  split; [rewrite length_app, length_wav_header_layout; subst pcm; now rewrite length_map|].
  unfold getUint16, getUint32. rewrite !slice_header by lia.
  repeat split; try reflexivity.
  - unfold emitted. rewrite Htr, Hnet. apply drop_app_length.
  - intros l buf Hl.
    rewrite lookup_insert_ne by (intros <-; rewrite lookup_insert_ne in Hwf by congruence;
                                  congruence).
    rewrite lookup_insert_ne by congruence. exact Hl.
Qed.


(** Of the answer of the provider only the first part of the first
    candidate is read: the other candidates and the other parts have no
    influence on the value found at the audio path. *)
Theorem audio_path_reads_first_part (fields : list (js_string * json))
    (c : json) (cs : list json) (content p : json) (ps : list json) :
  lookup_field (js "candidates") fields = Some (JArr (c :: cs)) ->
  get_prop (js "content") c = Some content ->
  get_prop (js "parts") content = Some (JArr (p :: ps)) ->
  audio_path (JObj fields)
  = opt_chain (opt_chain (Some p) (get_prop (js "inlineData"))) (get_prop (js "data")).
Proof.
  intros Hc Hcontent Hparts. unfold audio_path.
  cbn [opt_chain get_prop]. rewrite Hc. cbn [opt_chain get_index0 head].
  destruct c; try discriminate Hcontent.
  cbn [opt_chain]. rewrite Hcontent.
  destruct content; try discriminate Hparts.
  cbn [opt_chain]. rewrite Hparts. reflexivity.
Qed.

(** *** Delivery, further *)

(** [sendVoiceMessage] on a buffer that holds [voice].  With a chat id
    on which [chatId.toString()] throws ([undefined], [null], or a value
    that cannot be converted) the type error is thrown before anything is
    done.  With any other chat id it makes one request,
    which carries exactly these bytes, and leaves the heap as it is.  It
    returns only when the answer has a success status and a body that
    parses; a rejection is thrown as it is, without a log; an answer with
    another status is logged with its body and thrown as a Telegram API
    error that carries the status. *)
Theorem sendVoiceMessage_outcome (chatId : js_value) (audioBuffer : loc) (botToken : js_string)
    (s : state) (voice : list byte) :
  heap s !! audioBuffer = Some voice ->
  let req := TelegramSendVoice botToken chatId voice in
  let res := network P (trace s) req in
  let run := sendVoiceMessage P chatId audioBuffer botToken s in
  (toString_throws chatId = true -> run = (Throw TypeError, s)) /\
  (toString_throws chatId = false ->
  heap run.2 = heap s /\
  (exists logs, emitted s run.2 = Fetch req res :: map ConsoleError logs /\
                (length logs <= 1)%nat) /\
  ((exists v, run.1 = Normal v) <-> upload_failed res = false) /\
  (upload_failed res = true -> run.1 = Throw (upload_error res)) /\
  (forall e, res = Rejected e -> emitted s run.2 = [Fetch req res]) /\
  (forall resp body, res = Resolved resp -> ok resp = false -> body_text resp = Some body ->
     emitted s run.2
     = [Fetch req res; ConsoleError (LogTelegramApiError (status resp) body)])).
Proof.
  intros Hv req res run. subst run res req. destruct s as [h tr]. cbn [heap trace] in *.
  split; intros Hnull; unfold sendVoiceMessage, bind; rewrite Hnull; [reflexivity|].
  unfold load, global_fetch, emitted, ret. cbn [heap trace]. rewrite Hv.
  cbn [heap trace].
  destruct (network P tr (TelegramSendVoice botToken chatId voice)) as [e|resp] eqn:Hnet.
  - cbn [fst snd heap trace upload_failed upload_error]. rewrite drop_app_length.
    split; [reflexivity|]. split; [exists []; split; [reflexivity|simpl; lia]|].
    split; [split; [intros [v Hv']; discriminate|discriminate]|].
    split; [reflexivity|]. split; [reflexivity|]. intros; discriminate.
  - unfold upload_failed, upload_accepted, upload_error.
    destruct (ok resp) eqn:Hok; cbn [negb andb].
    + unfold response_json. destruct (body_json resp) as [v|] eqn:Hj;
        cbn [fst snd heap trace ret throw negb]; rewrite drop_app_length.
      * split; [reflexivity|]. split; [exists []; split; [reflexivity|simpl; lia]|].
        split; [split; [reflexivity|intros _; eexists; reflexivity]|].
        split; [discriminate|]. split; [discriminate|]. intros; simplify_eq; congruence.
      * split; [reflexivity|]. split; [exists []; split; [reflexivity|simpl; lia]|].
        split; [split; [intros [v Hv']; discriminate|discriminate]|].
        split; [reflexivity|]. split; [discriminate|]. intros; simplify_eq; congruence.
    + unfold response_text, console_error, emit, throw, ret.
      destruct (body_text resp) as [body|] eqn:Ht; cbn [fst snd heap trace].
      * rewrite <- app_assoc, drop_app_length. cbn [app].
        split; [reflexivity|].
        split; [exists [LogTelegramApiError (status resp) body]; split; [reflexivity|simpl; lia]|].
        split; [split; [intros [v Hv']; discriminate|discriminate]|].
        split; [reflexivity|]. split; [discriminate|].
        intros resp' body' [= <-] _ Ht'. rewrite Ht in Ht'. now injection Ht' as <-.
      * rewrite drop_app_length.
        split; [reflexivity|]. split; [exists []; split; [reflexivity|simpl; lia]|].
        split; [split; [intros [v Hv']; discriminate|discriminate]|].
        split; [reflexivity|]. split; [discriminate|].
        intros resp' body' [= <-] _ Ht'. congruence.
Qed.

(** *** The handler, over all its runs *)

Ltac three_ways m :=
  let Hstart := fresh "Hstart" in
  let Hblank := fresh "Hblank" in
  destruct (bool_decide (text m = Some (js "/start"))) eqn:Hstart;
    [ | destruct (no_string (text m)) eqn:Hblank;
        [ | let t := fresh "t" in
            let Ht := fresh "Ht" in
            destruct (valid_text m Hstart Hblank) as (t & Ht & ? & ?);
            rewrite Ht; cbn [default from_option Datatypes.id] ] ].

Lemma voice_event_inj (tok tok' : js_string) (c c' : js_value) (voice voice' : list byte)
    (res res' : fetch_result) :
  Fetch (TelegramSendVoice tok c voice) res = Fetch (TelegramSendVoice tok' c' voice') res' ->
  tok = tok' /\ c = c' /\ voice = voice' /\ res = res'.
Proof. intros [= -> -> -> ->]. repeat split. Qed.

(** The occurrences of a voice upload among explicit effects. *)
Ltac find_voice H :=
  cbn [In] in H;
  repeat (destruct H as [H|H]; try discriminate H); try contradiction;
  apply voice_event_inj in H; destruct H as (? & ? & ? & ?); subst; simplify_eq.

(** Splits a conjunction and closes its last conjunct, which fixes the
    existential variables, before the others. *)
Ltac last_first :=
  lazymatch goal with
  | |- _ /\ _ => split; [|last_first]
  | |- _ => reflexivity
  end.

Ltac flatten_traces :=
  repeat match goal with
         | H : network P _ _ = _ |- _ => revert H
         end;
  rewrite <- ?app_assoc; cbn [app map]; intros.

(** All the runs of the [try] statement, as goals [(r, s') = run -> ...]:
    by what the text is, then by the answers of the world. *)
Ltac case_toString :=
  match goal with
  | |- context [toString_throws ?c] =>
      let H := fresh "Hid" in
      destruct (toString_throws c) eqn:H; cbv beta iota; rewrite ?lookup_insert_eq; cbv beta iota
  end.

Ltac case_text text :=
  let Hstart := fresh "Hstart" in
  let Htruthy := fresh "Htruthy" in
  let Hblank := fresh "Hblank" in
  destruct (is_string (js "/start") text) eqn:Hstart;
    [ | destruct (truthy text) eqn:Htruthy; cbn [negb];
        [ destruct text as [[| | |? | |]|]; try discriminate Htruthy; cbv beta iota;
          cbn [string_of];
          try match goal with
              | |- context [bool_decide (trim ?t = [])] =>
                  destruct (bool_decide (trim t = [])) eqn:Hblank
              end
        | ] ].

Ltac open_try chatId text env s :=
  cbv zeta;
  let r := fresh "r" in
  let s' := fresh "s'" in
  let Hrun := fresh "Hrun" in
  destruct (handleMessage_try P chatId text env s) as [r s'] eqn:Hrun; cbn [fst snd];
  revert Hrun; destruct s as [? ?];
  cbv [handleMessage_try no_text try_catch bind sendMessage sendVoiceMessage global_fetch
       console_error emit load ret throw response_text response_json heap trace].

Ltac explore_try := repeat first [case_network | case_speech | case_response | case_toString].

Ltac try_runs chatId text env s :=
  open_try chatId text env s; case_text text; explore_try.

(** The handler only adds to the trace. *)
Lemma handleMessage_try_trace (chatId text : js_value) (env : Env) (s : state) :
  trace (handleMessage_try P chatId text env s).2
  = trace s ++ emitted s (handleMessage_try P chatId text env s).2.
Proof.
  try_runs chatId text env s.
  all: let Heq := fresh in
       intros Heq; apply pair_equal_spec in Heq; destruct Heq as [<- <-];
       unfold emitted; cbn [trace heap map]; rewrite <- ?app_assoc;
       rewrite ?drop_app_length; reflexivity.
Qed.

Lemma handleMessage_trace (message : json) (env : Env) (s : state) :
  trace (handleMessage P message env s).2
  = trace s ++ emitted s (handleMessage P message env s).2.
Proof.
  destruct (nullish (get_prop (js "chat") message)) eqn:Hnull.
  - rewrite handleMessage_no_chat by assumption.
    unfold emitted. cbn [snd]. now rewrite drop_all, app_nil_r.
  - destruct (get_prop (js "chat") message) as [chat|] eqn:Hchat; [|discriminate Hnull].
    rewrite (handleMessage_chat message chat) by assumption.
    apply handleMessage_try_trace.
Qed.

(** What the [try] statement throws is the rejection of the request of
    the failure notification. *)
Lemma handleMessage_try_throws (chatId text : js_value) (env : Env) (s : state)
    (e : js_error) :
  let run := handleMessage_try P chatId text env s in
  run.1 = Throw e ->
  exists e0 pre,
    emitted s run.2
    = pre ++ [ConsoleError (LogErrorHandlingMessage e0);
              Fetch (TelegramSendMessage (TELEGRAM_BOT_TOKEN env) chatId generic_error_text)
                    (Rejected e)] /\
    network P (trace s ++ pre ++ [ConsoleError (LogErrorHandlingMessage e0)])
            (TelegramSendMessage (TELEGRAM_BOT_TOKEN env) chatId generic_error_text)
    = Rejected e.
Proof.
  try_runs chatId text env s; finish_run.
  all: intros Hthrow; try discriminate Hthrow; injection Hthrow as <-.
  all: flatten_traces.
  all: first [ eexists _, []; split; [reflexivity|]
             | eexists _, [_]; split; [reflexivity|]
             | eexists _, [_; _]; split; [reflexivity|]
             | eexists _, [_; _; _]; split; [reflexivity|]
             | eexists _, [_; _; _; _]; split; [reflexivity|]
             | eexists _, [_; _; _; _; _]; split; [reflexivity|] ].
  all: cbn [app]; rewrite ?app_nil_r; assumption.
Qed.

(** An error leaves [handleMessage] in two ways only.  A message without
    a chat throws a type error before anything is done.  Otherwise what is
    thrown is the rejection of the request of the failure notification:
    the last two effects of the run are the log of the error the handler
    caught and that request, and what the handler throws is the rejection
    the world gave to it. *)
Theorem handleMessage_throws_only_failed_notification (message : json) (env : Env)
    (s : state) (e : js_error) :
  let run := handleMessage P message env s in
  run.1 = Throw e ->
  (nullish (get_prop (js "chat") message) = true /\ e = TypeError /\ run.2 = s) \/
  (exists chat e0 pre,
     get_prop (js "chat") message = Some chat /\
     nullish (Some chat) = false /\
     emitted s run.2
     = pre ++ [ConsoleError (LogErrorHandlingMessage e0);
               Fetch (TelegramSendMessage (TELEGRAM_BOT_TOKEN env)
                        (get_prop (js "id") chat) generic_error_text) (Rejected e)] /\
     network P (trace s ++ pre ++ [ConsoleError (LogErrorHandlingMessage e0)])
             (TelegramSendMessage (TELEGRAM_BOT_TOKEN env)
                (get_prop (js "id") chat) generic_error_text)
     = Rejected e).
Proof.
  cbv zeta. destruct (nullish (get_prop (js "chat") message)) eqn:Hnull.
  - rewrite handleMessage_no_chat by assumption. cbn [fst snd].
    intros [= <-]. left. repeat split.
  - destruct (get_prop (js "chat") message) as [chat|] eqn:Hchat; [|discriminate Hnull].
    rewrite (handleMessage_chat message chat) by assumption.
    intros Hthrow. right.
    destruct (handleMessage_try_throws _ _ _ _ _ Hthrow) as (e0 & pre & Hpre & Hnet).
    exists chat, e0, pre. split; [reflexivity|]. split; [exact Hnull|].
    split; [exact Hpre|exact Hnet].
Qed.

(** Every request of a run is made for the message at hand: notifications
    and the voice go to the chat of the message with the bot token of the
    environment, and synthesis gets the key of the environment and the text
    of the message exactly as it came (it is not trimmed). *)
Theorem handleMessage_addresses_only_sender (m : Message) (env : Env) (s : state) :
  let run := handleMessage P (message_json m) env s in
  Forall (addressed_to env m) (emitted s run.2).
Proof.
  all_runs m env s. three_ways m; explore; finish_run.
  all: repeat constructor; assumption.
Qed.

(** A run makes at most four requests: at most one synthesis request, at
    most one voice upload and at most three notifications.  A message
    without a chat has no effect at all; for every other message at least
    one notification is requested. *)
Theorem handleMessage_request_bounds (message : json) (env : Env) (s : state) :
  let run := handleMessage P message env s in
  (count_events is_synthesis_call (emitted s run.2) <= 1)%nat /\
  (count_events is_delivery_call (emitted s run.2) <= 1)%nat /\
  (length (notifications (emitted s run.2)) <= 3)%nat /\
  (count_events is_request (emitted s run.2) <= 4)%nat /\
  (if nullish (get_prop (js "chat") message)
   then emitted s run.2 = []
   else (1 <= length (notifications (emitted s run.2)))%nat /\
        (1 <= count_events is_request (emitted s run.2))%nat).
Proof.
  cbv zeta. destruct (nullish (get_prop (js "chat") message)) eqn:Hnull.
  - rewrite handleMessage_no_chat by assumption. unfold emitted. cbn [snd].
    rewrite drop_all. cbn. repeat split; lia.
  - destruct (get_prop (js "chat") message) as [chat|] eqn:Hchat; [|discriminate Hnull].
    rewrite (handleMessage_chat message chat) by assumption.
    generalize (get_prop (js "id") chat) as chatId.
    generalize (get_prop (js "text") message) as text.
    clear. intros text chatId.
    try_runs chatId text env s; finish_run.
    all: cbn; lia.
Qed.

(** After the synthesis request exactly one of two things follows: one log
    entry and the "failed to generate speech" notification, the heap being
    as before and no upload being made; or, with no log entry in between,
    the voice upload. *)
Theorem synthesis_then_upload_or_failure (m : Message) (env : Env) (s : state)
    (key t : js_string) (res : fetch_result) :
  let run := handleMessage P (message_json m) env s in
  In (Fetch (GeminiGenerateContent key t) res) (emitted s run.2) ->
  exists r0 rest,
    emitted s run.2
    = Fetch (notify env m processing_text) (Resolved r0)
      :: Fetch (GeminiGenerateContent key t) res :: rest /\
    ((exists log res' rest',
        rest = ConsoleError log :: Fetch (notify env m synthesis_failed_text) res' :: rest' /\
        existsb is_delivery_call (emitted s run.2) = false /\
        heap run.2 = heap s) \/
     (exists voice res' rest',
        rest = Fetch (TelegramSendVoice (TELEGRAM_BOT_TOKEN env) (Some (JNum (id (chat m)))) voice) res'
               :: rest')).
Proof.
  all_runs m env s. three_ways m; explore; finish_run.
  all: intros Hin; split_in Hin; simplify_eq.
  all: eexists _, _; split; [reflexivity|].
  all: first [ left; eexists _, _, _; split; [reflexivity|split; reflexivity]
             | right; eexists _, _, _; reflexivity ].
Qed.

(** What is uploaded, whatever becomes of the upload: the header for
    24000 Hz, mono, followed by the decoded bytes of the payload the
    provider sent; and the upload comes right after the synthesis request,
    which comes right after the processing notification. *)
Theorem uploaded_voice_is_encoded_audio (m : Message) (env : Env) (s : state)
    (tok : js_string) (c : js_value) (voice : list byte) (res : fetch_result) :
  let run := handleMessage P (message_json m) env s in
  In (Fetch (TelegramSendVoice tok c voice) res) (emitted s run.2) ->
  exists t r0 rs data b64 binary rest,
    text m = Some t /\
    ok rs = true /\ body_json rs = Some data /\ audio_path data = Some b64 /\
    truthy (Some b64) = true /\ atob P b64 = Some binary /\
    voice = wav_header_layout (length binary) 24000 1 ++ map byte_of_Z binary /\
    length voice = (44 + length binary)%nat /\
    emitted s run.2
    = Fetch (notify env m processing_text) (Resolved r0)
      :: Fetch (GeminiGenerateContent (GEMINI_API_KEY env) t) (Resolved rs)
      :: Fetch (TelegramSendVoice tok c voice) res
      :: rest.
Proof.
  all_runs m env s. three_ways m; explore; finish_run.
  all: intros Hin; find_voice Hin.
  all: eexists _, _, _, _, _, _, _; last_first.
  all: first [ eassumption
             | reflexivity
             | now rewrite length_map
             | rewrite length_app, length_wav_header_layout, length_map; reflexivity ].
Qed.

(** Every upload that is not a success for [sendVoiceMessage] (a request
    that rejects, a status outside 200-299, or a success status with a
    body that does not parse) ends in the log of its error and the request
    of the failure notification, which are the last two effects of the run;
    the handler returns normally if that request is answered. *)
Theorem failed_upload_notifies_failure (m : Message) (env : Env) (s : state)
    (tok : js_string) (c : js_value) (voice : list byte) (res : fetch_result) :
  let run := handleMessage P (message_json m) env s in
  In (Fetch (TelegramSendVoice tok c voice) res) (emitted s run.2) ->
  upload_failed res = true ->
  exists pre res2,
    emitted s run.2
    = pre ++ [ConsoleError (LogErrorHandlingMessage (upload_error res));
              Fetch (notify env m generic_error_text) res2] /\
    In (Fetch (TelegramSendVoice tok c voice) res) pre /\
    run.1 = match res2 with
            | Resolved _ => Normal tt
            | Rejected e' => Throw e'
            end.
Proof.
  cbv zeta. intros Hin Hfail. revert Hin.
  all_runs m env s. three_ways m; explore; finish_run.
  all: intros Hin; find_voice Hin.
  all: unfold upload_failed, upload_accepted, upload_error in *.
  all: repeat match goal with
              | H : ok _ = _ |- _ => rewrite H in *
              | H : body_json _ = _ |- _ => rewrite H in *
              | H : body_text _ = _ |- _ => rewrite H in *
              end.
  all: try discriminate Hfail.
  all: first [ eexists [_; _; _], _; split; [reflexivity|]
             | eexists [_; _; _; _], _; split; [reflexivity|] ].
  all: (split; [simpl; tauto|reflexivity]).
Qed.

(** For a message with a chat, how a run begins is decided by the text
    alone.  For a string: the request of the welcome for the exact text
    "/start" only (not for "/start" with spaces around it), of the request
    for text when the string is of white space only (or empty), of the
    processing notification for every other string.  For a text that is
    absent or falsy: the request for text.  For any other text, which has
    no [trim]: the log of the type error, then the request of the failure
    notification, and nothing else. *)
Theorem handleMessage_first_notification (message chat : json) (env : Env) (s : state) :
  get_prop (js "chat") message = Some chat ->
  nullish (Some chat) = false ->
  let run := handleMessage P message env s in
  let to := TelegramSendMessage (TELEGRAM_BOT_TOKEN env) (get_prop (js "id") chat) in
  match get_prop (js "text") message with
  | Some (JStr t) =>
      exists res rest,
        emitted s run.2
        = Fetch (to (if bool_decide (t = js "/start") then welcome_text
                     else if whitespace_only t then please_send_text
                     else processing_text)) res :: rest
  | text =>
      if truthy text
      then exists res,
             emitted s run.2
             = [ConsoleError (LogErrorHandlingMessage TypeError);
                Fetch (to generic_error_text) res]
      else exists res rest, emitted s run.2 = Fetch (to please_send_text) res :: rest
  end.
Proof.
  intros Hchat Hnull. cbv zeta.
  rewrite (handleMessage_chat message chat) by assumption.
  generalize (get_prop (js "id") chat) as chatId.
  generalize (get_prop (js "text") message) as text.
  clear. intros text chatId.
  destruct text as [[|b|n|t|l|fs]|].
  4: { open_try chatId (Some (JStr t)) env s. cbn [is_string truthy string_of].
       destruct (bool_decide (t = js "/start")) eqn:Hstart.
       - explore_try; finish_run; eexists _, _; reflexivity.
       - destruct (whitespace_only t) eqn:Hws.
         + assert (Htrim : bool_decide (trim t = []) = true)
             by now apply bool_decide_eq_true, trim_nil.
           rewrite Htrim. destruct (bool_decide (t = [])); cbn [negb]; cbv beta iota.
           all: explore_try; finish_run; eexists _, _; reflexivity.
         + assert (Htrim : bool_decide (trim t = []) = false).
           { apply bool_decide_eq_false. rewrite trim_nil. congruence. }
           assert (Hnil : bool_decide (t = []) = false).
           { apply bool_decide_eq_false. intros ->. discriminate Hws. }
           rewrite Htrim, Hnil. cbn [negb]. cbv beta iota.
           explore_try; finish_run; eexists _, _; reflexivity. }
  all: match goal with
       | |- context [handleMessage_try P ?c ?text ?e ?st] => open_try c text e st
       end.
  all: cbn [is_string truthy].
  all: try destruct b; try destruct (n =? 0)%Z; cbn [negb]; cbv beta iota.
  all: explore_try; finish_run.
  all: first [ eexists; reflexivity | eexists _, _; reflexivity ].
Qed.

Lemma two_allocations_frame (h : gmap loc (list byte)) (pcm out : list byte)
    (l : loc) (buf : list byte) :
  h !! l = Some buf ->
  (<[fresh (dom (<[fresh (dom h) := pcm]> h)) := out]> (<[fresh (dom h) := pcm]> h)) !! l
  = Some buf.
Proof.
  intros Hl.
  assert (Ha : h !! fresh (dom h) = None) by apply not_elem_of_dom, is_fresh.
  assert (Hw : (<[fresh (dom h) := pcm]> h) !! fresh (dom (<[fresh (dom h) := pcm]> h)) = None)
    by apply not_elem_of_dom, is_fresh.
  assert (Hla : l <> fresh (dom h)) by congruence.
  assert (Hl' : (<[fresh (dom h) := pcm]> h) !! l = Some buf)
    by now rewrite lookup_insert_ne.
  rewrite lookup_insert_ne by congruence. exact Hl'.
Qed.

(** The handler never touches a buffer that existed before it ran, and it
    allocates only in the runs that get to the voice upload: in every other
    run the heap afterwards is the heap before. *)
Theorem handleMessage_frame (m : Message) (env : Env) (s : state) :
  let run := handleMessage P (message_json m) env s in
  (forall l buf, heap s !! l = Some buf -> heap run.2 !! l = Some buf) /\
  (existsb is_delivery_call (emitted s run.2) = false -> heap run.2 = heap s).
Proof.
  all_runs m env s. three_ways m; explore; finish_run.
  all: split; [intros l0 buf0 Hl0; first [exact Hl0 | now apply two_allocations_frame]|].
  all: cbn; intros Hnone; first [reflexivity | discriminate Hnone].
Qed.

(** *** The exported handler, further *)

Lemma json_null_or_not (v : json) : v = JNull \/ v <> JNull.
Proof. destruct v; [left; reflexivity|right; discriminate..]. Qed.

(** The worker always answers: [fetch] never throws, and its reply is one
    of four: 200 "Bot is running!", 405 "Method not allowed", 200 "OK" and
    500 "Error processing request". *)
Theorem fetch_always_replies (request : Request) (env : Env) (s : state) :
  exists reply,
    (fetch P request env s).1 = Normal reply /\
    In reply [Reply_ (js "Bot is running!") 200; Reply_ (js "Method not allowed") 405;
              Reply_ (js "OK") 200; Reply_ (js "Error processing request") 500].
Proof.
  destruct (bool_decide (method request = js "GET")) eqn:Hget.
  { unfold fetch, try_catch, bind. rewrite Hget.
    eexists; split; [reflexivity|simpl; tauto]. }
  destruct (bool_decide (method request = js "POST")) eqn:Hpost.
  2: { unfold fetch, try_catch, bind. rewrite Hget, Hpost.
       eexists; split; [reflexivity|simpl; tauto]. }
  destruct (json_body request) as [update|] eqn:Hb.
  2: { unfold fetch, try_catch, bind, request_json. rewrite Hget, Hpost, Hb.
       eexists; split; [reflexivity|simpl; tauto]. }
  apply bool_decide_eq_true in Hpost.
  destruct (json_null_or_not update) as [->|Hnull].
  { rewrite fetch_post_null by assumption.
    eexists; split; [reflexivity|simpl; tauto]. }
  rewrite (fetch_post request env s update) by assumption.
  unfold try_catch, bind, console_error, emit, ret.
  destruct (get_prop (js "message") update) as [message|];
    [|eexists; split; [reflexivity|simpl; tauto]].
  destruct (truthy (Some message)); [|eexists; split; [reflexivity|simpl; tauto]].
  destruct (handleMessage P message env s) as [[[]|e] s'];
    eexists; (split; [reflexivity|simpl; tauto]).
Qed.

(** A POST whose body does not parse: the error is logged, nothing else
    happens (no request goes out, the heap is as before) and the reply is
    500. *)
Theorem fetch_unparsable_body (request : Request) (env : Env) (s : state) :
  method request = js "POST" ->
  json_body request = None ->
  fetch P request env s
  = (Normal (Reply_ (js "Error processing request") 500),
     State (heap s) (trace s ++ [ConsoleError (LogError BodyError)])).
Proof.
  intros Hm Hb. unfold fetch, try_catch, bind, request_json. rewrite Hm, Hb.
  replace (bool_decide (js "POST" = js "GET")) with false by reflexivity.
  replace (bool_decide (js "POST" = js "POST")) with true by reflexivity.
  reflexivity.
Qed.

(** Requests go out only for a POST whose body parses to an update that
    carries a message with a chat: for any other method, for a body that
    does not parse, for an update without a message and for a message
    without a chat, the run of [fetch] contains no request at all. *)
Theorem fetch_requests_only_for_posted_message (request : Request) (env : Env)
    (s : state) :
  existsb is_request (emitted s (fetch P request env s).2) = true ->
  method request = js "POST" /\
  exists update message,
    json_body request = Some update /\
    get_prop (js "message") update = Some message /\
    truthy (Some message) = true /\
    nullish (get_prop (js "chat") message) = false.
Proof.
  destruct (bool_decide (method request = js "GET")) eqn:Hget.
  { unfold fetch, try_catch, bind, emitted. rewrite Hget.
    cbn [snd trace ret]. rewrite drop_all. discriminate. }
  destruct (bool_decide (method request = js "POST")) eqn:Hpost.
  2: { unfold fetch, try_catch, bind, emitted. rewrite Hget, Hpost.
       cbn [snd trace ret negb]. rewrite drop_all. discriminate. }
  destruct (json_body request) as [update|] eqn:Hb.
  2: { unfold fetch, try_catch, bind, request_json, console_error, emit, ret, throw, emitted.
       rewrite Hget, Hpost, Hb. cbn [negb snd trace]. rewrite drop_app_length. discriminate. }
  apply bool_decide_eq_true in Hpost.
  destruct (json_null_or_not update) as [->|Hnull].
  { rewrite fetch_post_null by assumption. unfold emitted.
    cbn [snd trace]. rewrite drop_app_length. discriminate. }
  rewrite (fetch_post request env s update) by assumption.
  unfold try_catch, bind, console_error, emit, ret.
  destruct (get_prop (js "message") update) as [message|] eqn:Hmsg.
  2: { unfold emitted. cbn [snd trace]. rewrite drop_all. discriminate. }
  destruct (truthy (Some message)) eqn:Htruthy.
  2: { unfold emitted. cbn [snd trace]. rewrite drop_all. discriminate. }
  destruct (nullish (get_prop (js "chat") message)) eqn:Hchat.
  { rewrite handleMessage_no_chat by assumption. unfold emitted.
    cbn [snd trace]. rewrite drop_app_length. discriminate. }
  intros _. split; [exact Hpost|]. exists update, message. auto.
Qed.

(** The effects of [fetch] on a POST that carries a message are those of
    [handleMessage], followed by one log entry when the handler threw; the
    heap is the one the handler left. *)
Theorem fetch_effects_of_posted_message (request : Request) (env : Env) (s : state)
    (update message : json) :
  method request = js "POST" ->
  json_body request = Some update ->
  get_prop (js "message") update = Some message ->
  truthy (Some message) = true ->
  let handled := handleMessage P message env s in
  let run := fetch P request env s in
  run.1 = Normal (reply_after handled.1) /\
  heap run.2 = heap handled.2 /\
  emitted s run.2
  = emitted s handled.2
    ++ match handled.1 with
       | Normal _ => []
       | Throw e => [ConsoleError (LogError e)]
       end.
Proof.
  intros Hm Hb Hu Ht handled run. subst handled run.
  pose proof (handleMessage_trace message env s) as Htr.
  assert (Hnull : update <> JNull) by (intros ->; discriminate Hu).
  rewrite (fetch_post request env s update Hm Hb Hnull).
  rewrite Hu, Ht. unfold try_catch, bind.
  destruct (handleMessage P message env s) as [[[]|e] s'] eqn:Hrun; cbn [fst snd] in *.
  - split; [reflexivity|]. split; [reflexivity|]. now rewrite app_nil_r.
  - unfold console_error, emit, ret. cbn [fst snd heap trace reply_after].
    split; [reflexivity|]. split; [reflexivity|].
    unfold emitted at 1. cbn [trace]. rewrite Htr at 1.
    rewrite <- app_assoc. apply drop_app_length.
Qed.

(** In a world that never rejects the request of a notification, the
    [try] statement of the handler returns normally, however synthesis
    and delivery went. *)
Lemma handleMessage_try_returns (chatId text : js_value) (env : Env) (s : state) :
  (forall h tok c txt e, network P h (TelegramSendMessage tok c txt) <> Rejected e) ->
  (handleMessage_try P chatId text env s).1 = Normal tt.
Proof.
  intros Hup. try_runs chatId text env s; finish_run.
  all: first [ reflexivity
             | exfalso;
               match goal with
               | H : network P _ (TelegramSendMessage _ _ _) = Rejected _ |- _ =>
                   exact (Hup _ _ _ _ _ H)
               end ].
Qed.

(** The reply does not tell how the pipeline went: in a world that never
    rejects the request of a notification, every POST whose body parses to
    a value other than [null], and whose message, if it has one, has a
    chat, is answered 200 "OK", whether synthesis and delivery succeeded
    or not. *)
Theorem fetch_acknowledges_when_notifications_get_through (request : Request)
    (env : Env) (s : state) (update : json) :
  (forall h tok c txt e, network P h (TelegramSendMessage tok c txt) <> Rejected e) ->
  method request = js "POST" ->
  json_body request = Some update ->
  update <> JNull ->
  (forall message,
     get_prop (js "message") update = Some message ->
     truthy (Some message) = true ->
     nullish (get_prop (js "chat") message) = false) ->
  (fetch P request env s).1 = Normal (Reply_ (js "OK") 200).
Proof.
  intros Hup Hm Hb Hnull Hchat.
  rewrite (fetch_post request env s update Hm Hb Hnull).
  unfold try_catch, bind, ret.
  destruct (get_prop (js "message") update) as [message|] eqn:Hu; [|reflexivity].
  destruct (truthy (Some message)) eqn:Ht; [|reflexivity].
  specialize (Hchat message eq_refl Ht).
  destruct (get_prop (js "chat") message) as [chat|] eqn:Hc; [|discriminate Hchat].
  rewrite (handleMessage_chat message chat) by assumption.
  pose proof (handleMessage_try_returns (get_prop (js "id") chat)
                (get_prop (js "text") message) env s Hup) as Hnormal.
  destruct (handleMessage_try P (get_prop (js "id") chat) (get_prop (js "text") message) env s)
    as [[[]|e] s']; [reflexivity|discriminate Hnormal].
Qed.

End Pipeline.

(** ** The properties on concrete worlds *)

(** C6 on a world whose provider answers 503. *)
Lemma synthesis_refused_notifies_failure_witness :
  let run := handleMessage synthesis_refused (message_json hello) env0 empty_state in
  In (Fetch (GeminiGenerateContent (js "api-key") (js "hello")) (refused 503))
     (emitted empty_state run.2) /\
  existsb is_delivery_call (emitted empty_state run.2) = false /\
  heap run.2 = heap empty_state.
Proof.
  assert (Hin : In (Fetch (GeminiGenerateContent (js "api-key") (js "hello")) (refused 503))
                  (emitted empty_state
                     (handleMessage synthesis_refused (message_json hello) env0 empty_state).2))
    by (vm_compute; auto 10).
  assert (Hbad : ok (Response 503 (Some (js "refused")) None) = false) by reflexivity.
  destruct (synthesis_refused_notifies_failure synthesis_refused hello env0 empty_state
              _ _ _ Hin Hbad) as (_ & _ & Hd & Hh).
  exact (conj Hin (conj Hd Hh)).
Defined.

(** C7 on a world whose provider answers 200 with an empty object. *)
Lemma missing_audio_notifies_failure_witness :
  let run := handleMessage no_audio (message_json hello) env0 empty_state in
  In (Fetch (GeminiGenerateContent (js "api-key") (js "hello"))
            (Resolved (Response 200 None (Some (JObj [])))))
     (emitted empty_state run.2) /\
  existsb is_delivery_call (emitted empty_state run.2) = false /\
  heap run.2 = heap empty_state.
Proof.
  assert (Hin : In (Fetch (GeminiGenerateContent (js "api-key") (js "hello"))
                          (Resolved (Response 200 None (Some (JObj [])))))
                  (emitted empty_state (handleMessage no_audio (message_json hello) env0 empty_state).2))
    by (vm_compute; auto 10).
  destruct (missing_audio_notifies_failure no_audio hello env0 empty_state
              _ _ _ (JObj []) Hin eq_refl eq_refl eq_refl) as (_ & _ & Hd & Hh).
  exact (conj Hin (conj Hd Hh)).
Defined.

(** C8 on a world in which everything is answered with a success. *)
Lemma delivered_voice_completes_witness :
  let run := handleMessage healthy (message_json hello) env0 empty_state in
  In (Fetch (TelegramSendVoice (js "bot-token") (Some (JNum 7)) example_wav) accepted)
     (emitted empty_state run.2) /\
  run.1 = Normal tt /\
  notifications (emitted empty_state run.2) = [processing_text].
Proof.
  assert (Hin : In (Fetch (TelegramSendVoice (js "bot-token") (Some (JNum 7)) example_wav) accepted)
                  (emitted empty_state (handleMessage healthy (message_json hello) env0 empty_state).2))
    by (vm_compute; auto 10).
  destruct (delivered_voice_completes healthy hello env0 empty_state _ _ _ _ Hin eq_refl)
    as (Hr & Hn & _).
  exact (conj Hin (conj Hr Hn)).
Defined.

(** C10 on a world without network. *)
Lemma fetch_post_without_message_witness :
  fetch offline post_without_message env0 empty_state
  = (Normal (Reply_ (js "OK") 200), empty_state).
Proof.
  apply (fetch_post_without_message offline post_without_message env0 empty_state
           (JObj [])); [reflexivity|reflexivity|discriminate|reflexivity].
Defined.

(** C10 as stated fails on the body [null], which has no [message]:
    reading [update.message] throws a type error, which [fetch] logs, and
    the reply is 500, not 200. *)
Lemma fetch_post_null_counterexample :
  method post_null = js "POST" /\
  json_body post_null = Some JNull /\
  get_prop (js "message") JNull = None /\
  (fetch offline post_null env0 empty_state).1
  = Normal (Reply_ (js "Error processing request") 500) /\
  emitted empty_state (fetch offline post_null env0 empty_state).2
  = [ConsoleError (LogError TypeError)].
Proof.
  split; [reflexivity|]. split; [reflexivity|]. split; [reflexivity|].
  rewrite (fetch_post_null offline post_null env0 empty_state eq_refl eq_refl).
  split; reflexivity.
Qed.

(** C5 on the "/start" message. *)
Lemma start_command_sends_welcome_witness :
  let run := handleMessage healthy (message_json start_command) env0 empty_state in
  run.1 = Normal tt /\
  emitted empty_state run.2 = [Fetch (notify env0 start_command welcome_text) accepted].
Proof.
  destruct (start_command_sends_welcome healthy start_command env0 empty_state eq_refl)
    as (_ & _ & _ & _ & H).
  apply H. reflexivity.
Defined.

(** C4 on a message of two spaces. *)
Lemma blank_text_asks_for_text_witness :
  let run := handleMessage healthy (message_json blank) env0 empty_state in
  run.1 = Normal tt /\
  emitted empty_state run.2 = [Fetch (notify env0 blank please_send_text) accepted].
Proof.
  assert (Hblank : text blank = None \/
                   (exists t, text blank = Some t /\ whitespace_only t = true)).
  { right. exists (js "  "). split; reflexivity. }
  destruct (blank_text_asks_for_text healthy blank env0 empty_state Hblank)
    as (_ & _ & _ & _ & H & _).
  apply H. reflexivity.
Defined.

(** C3 as stated fails: in a world in which only the notifications cannot
    be sent, the pipeline does not go on to synthesis; the transport error
    leaves the handler and [fetch] replies 500. *)
Lemma notification_failure_counterexample :
  let run := handleMessage notifications_down (message_json hello) env0 empty_state in
  network notifications_down [] (notify env0 hello processing_text)
  = Rejected (NetworkError 0) /\
  run.1 = Throw (NetworkError 0) /\
  existsb is_synthesis_call (emitted empty_state run.2) = false /\
  existsb is_delivery_call (emitted empty_state run.2) = false /\
  (fetch notifications_down (post hello) env0 empty_state).1
  = Normal (Reply_ (js "Error processing request") 500).
Proof. vm_compute. repeat split; reflexivity. Qed.

(** C3, as amended, on that world. *)
Lemma processing_notification_outcome_witness :
  let run := handleMessage notifications_down (message_json hello) env0 empty_state in
  exists res,
    emitted empty_state run.2
    = [Fetch (notify env0 hello processing_text) (Rejected (NetworkError 0));
       ConsoleError (LogErrorHandlingMessage (NetworkError 0));
       Fetch (notify env0 hello generic_error_text) res] /\
    heap run.2 = heap empty_state.
Proof.
  assert (Hns : js "hello" <> js "/start") by discriminate.
  pose proof (processing_notification_outcome notifications_down hello env0 empty_state
                (js "hello") eq_refl Hns eq_refl) as H.
  cbv zeta in H. cbn [network notifications_down scripted notify] in H.
  destruct H as (res & Hev & _ & Hh).
  exists res. exact (conj Hev Hh).
Defined.

(** C2 as stated fails: in a world that refuses the upload with status 400
    the failure notification is sent, but no error leaves the handler and
    [fetch] replies 200 "OK". *)
Lemma delivery_error_counterexample :
  let run := handleMessage delivery_refused (message_json hello) env0 empty_state in
  In (Fetch (TelegramSendVoice (js "bot-token") (Some (JNum 7)) example_wav) (refused 400))
     (emitted empty_state run.2) /\
  ok (Response 400 (Some (js "refused")) None) = false /\
  In (Fetch (notify env0 hello generic_error_text) accepted) (emitted empty_state run.2) /\
  run.1 = Normal tt /\
  (forall e, run.1 <> Throw e) /\
  (fetch delivery_refused (post hello) env0 empty_state).1
  = Normal (Reply_ (js "OK") 200).
Proof.
  vm_compute. repeat split; auto 10; discriminate.
Qed.

(** C2, as amended, on that world. *)
Lemma delivery_refused_is_caught_witness :
  let run := handleMessage delivery_refused (message_json hello) env0 empty_state in
  exists e pre res,
    emitted empty_state run.2
    = pre ++ [ConsoleError (LogErrorHandlingMessage e);
              Fetch (notify env0 hello generic_error_text) res] /\
    run.1 = match res with
            | Resolved _ => Normal tt
            | Rejected e' => Throw e'
            end.
Proof.
  assert (Hin : In (Fetch (TelegramSendVoice (js "bot-token") (Some (JNum 7)) example_wav) (refused 400))
                  (emitted empty_state
                     (handleMessage delivery_refused (message_json hello) env0 empty_state).2))
    by (vm_compute; auto 10).
  destruct (delivery_refused_is_caught delivery_refused hello env0 empty_state
              _ _ _ _ Hin eq_refl) as (e & pre & res & Hev & _ & _ & Hr & _).
  exists e, pre, res. exact (conj Hev Hr).
Defined.

(** ** More on the encoder *)

(** The chunk identifiers and the constant fields of the header, and the
    two fields that hold the arguments: whatever the input, the output
    starts with "RIFF", has "WAVE" at 8, "fmt " at 12 and "data" at 36,
    declares a 16-byte format chunk, format tag 1 (PCM) and 16 bits per
    sample, and holds the channel count in 16 bits and the sample rate in
    32 bits. *)
Theorem pcmToWav_identifiers_and_format (s : state) (pcmData : loc) (pcm : list byte)
    (sampleRate channels : Z) :
  heap s !! pcmData = Some pcm ->
  exists (wavData : loc) (out : list byte) (s' : state),
    pcmToWav pcmData sampleRate channels s = (Normal wavData, s') /\
    heap s' !! wavData = Some out /\
    slice 0 4 out = [x52; x49; x46; x46] /\
    slice 8 4 out = [x57; x41; x56; x45] /\
    slice 12 4 out = [x66; x6d; x74; x20] /\
    slice 36 4 out = [x64; x61; x74; x61] /\
    getUint32 out 16 = 16%Z /\
    getUint16 out 20 = 1%Z /\
    getUint16 out 34 = 16%Z /\
    getUint16 out 22 = (channels mod 2 ^ 16)%Z /\
    getUint32 out 24 = (sampleRate mod 2 ^ 32)%Z.
Proof.
  intros Hp. destruct (pcmToWav_output s pcmData pcm sampleRate channels Hp) as (Hrun & _ & _).
  eexists _, _, _. split; [exact Hrun|]. cbn [heap].
  split; [apply lookup_insert_eq|].
  unfold getUint32, getUint16. rewrite !slice_header by lia.
  repeat split; try reflexivity.
  - change (slice 22 2 (wav_header_layout (length pcm) sampleRate channels))
      with (le_bytes 2 channels).
    now rewrite le_value_le_bytes.
  - change (slice 24 4 (wav_header_layout (length pcm) sampleRate channels))
      with (le_bytes 4 sampleRate).
    now rewrite le_value_le_bytes.
Qed.

Lemma pcmToWav_identifiers_and_format_witness :
  exists (wavData : loc) (out : list byte) (s' : state),
    pcmToWav 1%positive 44100 2 (State {[ 1%positive := [x01; x02; x03; x04] ]} [])
    = (Normal wavData, s') /\
    heap s' !! wavData = Some out /\
    slice 0 4 out = [x52; x49; x46; x46] /\
    getUint16 out 22 = 2%Z /\
    getUint32 out 24 = 44100%Z.
Proof.
  assert (Hp : heap (State {[ 1%positive := [x01; x02; x03; x04] ]} []) !! 1%positive
               = Some [x01; x02; x03; x04]) by (vm_compute; reflexivity).
  destruct (pcmToWav_identifiers_and_format _ _ _ 44100 2 Hp)
    as (wavData & out & s' & Hrun & Hout & Hriff & _ & _ & _ & _ & _ & _ & Hc & Hr).
  exists wavData, out, s'. exact (conj Hrun (conj Hout (conj Hriff (conj Hc Hr)))).
Defined.

(** When the arguments fit their fields, the header is consistent the way
    a reader of the file relies on: the block alignment is the channel
    count times the two bytes of a sample, the byte rate is the sample rate
    times the block alignment, the declared file size is the declared data
    size plus 36, and the declared data size is the number of bytes that
    follow the 44 bytes of the header. *)
Theorem pcmToWav_header_consistent (s : state) (pcmData : loc) (pcm : list byte)
    (sampleRate channels : Z) :
  heap s !! pcmData = Some pcm ->
  (0 <= channels * 2 < 2 ^ 16)%Z ->
  (0 <= sampleRate < 2 ^ 32)%Z ->
  (0 <= sampleRate * channels * 2 < 2 ^ 32)%Z ->
  (36 + Z.of_nat (length pcm) < 2 ^ 32)%Z ->
  exists (wavData : loc) (out : list byte) (s' : state),
    pcmToWav pcmData sampleRate channels s = (Normal wavData, s') /\
    heap s' !! wavData = Some out /\
    getUint16 out 32 = (getUint16 out 22 * (getUint16 out 34 / 8))%Z /\
    getUint32 out 28 = (getUint32 out 24 * getUint16 out 32)%Z /\
    getUint32 out 4 = (getUint32 out 40 + 36)%Z /\
    getUint32 out 40 = (Z.of_nat (length out) - 44)%Z /\
    getUint32 out 40 = Z.of_nat (length (drop 44 out)).
Proof.
  intros Hp Hc Hr Hb Hl.
  destruct (pcmToWav_output s pcmData pcm sampleRate channels Hp) as (Hrun & _ & _).
  eexists _, _, _. split; [exact Hrun|]. cbn [heap].
  split; [apply lookup_insert_eq|].
  rewrite length_drop, length_app, length_wav_header_layout.
  unfold getUint32, getUint16. rewrite !slice_header by lia.
  rewrite header_field_dataSize, header_field_fileSize, header_field_byteRate,
    header_field_blockAlign.
  change (slice 22 2 (wav_header_layout (length pcm) sampleRate channels))
    with (le_bytes 2 channels).
  change (slice 24 4 (wav_header_layout (length pcm) sampleRate channels))
    with (le_bytes 4 sampleRate).
  change (slice 34 2 (wav_header_layout (length pcm) sampleRate channels))
    with (le_bytes 2 16).
  rewrite !le_value_le_bytes.
  change (256 ^ Z.of_nat 4)%Z with (2 ^ 32)%Z.
  change (256 ^ Z.of_nat 2)%Z with (2 ^ 16)%Z.
  change (16 mod 2 ^ 16 / 8)%Z with 2%Z.
  rewrite (js_mul_exact channels 2) by lia.
  rewrite (js_mul_exact sampleRate (channels * 2)) by lia.
  rewrite (Z.mod_small (channels * 2)) by lia.
  rewrite (Z.mod_small channels) by lia.
  rewrite (Z.mod_small sampleRate) by lia.
  rewrite (Z.mod_small (sampleRate * (channels * 2))) by lia.
  rewrite (Z.mod_small (Z.of_nat (length pcm))) by lia.
  rewrite (Z.mod_small (36 + Z.of_nat (length pcm))) by lia.
  repeat split; lia.
Qed.

Lemma pcmToWav_header_consistent_witness :
  exists (wavData : loc) (out : list byte) (s' : state),
    pcmToWav 1%positive 24000 1 (State {[ 1%positive := [x01; x02; x03; x04] ]} [])
    = (Normal wavData, s') /\
    heap s' !! wavData = Some out /\
    getUint32 out 28 = (getUint32 out 24 * getUint16 out 32)%Z /\
    getUint32 out 40 = Z.of_nat (length (drop 44 out)).
Proof.
  assert (Hp : heap (State {[ 1%positive := [x01; x02; x03; x04] ]} []) !! 1%positive
               = Some [x01; x02; x03; x04]) by (vm_compute; reflexivity).
  destruct (pcmToWav_header_consistent _ _ _ 24000 1 Hp
              ltac:(lia) ltac:(lia) ltac:(lia) ltac:(simpl; lia))
    as (wavData & out & s' & Hrun & Hout & _ & Hrate & _ & _ & Hdata).
  exists wavData, out, s'. exact (conj Hrun (conj Hout (conj Hrate Hdata))).
Defined.

(** The encoder touches nothing but the buffer it allocates: the location
    it returns was free before the call, every buffer that existed, the
    input included, holds the same bytes after it, and it has no effect on
    the outside (the trace is the same). *)
Theorem pcmToWav_frame (s : state) (pcmData : loc) (pcm : list byte)
    (sampleRate channels : Z) :
  heap s !! pcmData = Some pcm ->
  exists (wavData : loc) (s' : state),
    pcmToWav pcmData sampleRate channels s = (Normal wavData, s') /\
    heap s !! wavData = None /\
    (forall l, l <> wavData -> heap s' !! l = heap s !! l) /\
    dom (heap s') = {[ wavData ]} ∪ dom (heap s) /\
    trace s' = trace s.
Proof.
  intros Hp.
  destruct (pcmToWav_output s pcmData pcm sampleRate channels Hp) as (Hrun & _ & Hfree).
  eexists _, _. split; [exact Hrun|]. cbn [heap trace].
  split; [exact Hfree|]. split; [|split; [apply dom_insert_L|reflexivity]].
  intros l Hl. now apply lookup_insert_ne.
Qed.

Lemma pcmToWav_frame_witness :
  exists (wavData : loc) (s' : state),
    pcmToWav 1%positive 24000 1
      (State {[ 1%positive := [x01; x02]; 2%positive := [xff] ]} []) = (Normal wavData, s') /\
    (forall l, l <> wavData ->
       heap s' !! l
       = heap (State {[ 1%positive := [x01; x02]; 2%positive := [xff] ]} []) !! l).
Proof.
  assert (Hp : heap (State {[ 1%positive := [x01; x02]; 2%positive := [xff] ]} [])
                 !! 1%positive = Some [x01; x02]) by (vm_compute; reflexivity).
  destruct (pcmToWav_frame _ _ _ 24000 1 Hp) as (wavData & s' & Hrun & _ & Hframe & _).
  exists wavData, s'. exact (conj Hrun Hframe).
Defined.

(** ** The further properties on concrete worlds *)

Lemma generateSpeech_never_throws_witness :
  exists (r : option loc) (s' : state) (logs : list log_entry),
    generateSpeech synthesis_down (js "hello") (js "api-key") empty_state = (Normal r, s') /\
    (length logs <= 1)%nat /\
    (r = None -> length logs = 1%nat /\ heap s' = heap empty_state).
Proof.
  destruct (generateSpeech_never_throws synthesis_down (js "hello") (js "api-key") empty_state)
    as (r & s' & logs & Hrun & _ & Hlen & Hnull & _).
  exists r, s', logs. exact (conj Hrun (conj Hlen Hnull)).
Defined.

Lemma generateSpeech_encodes_decoded_audio_witness :
  exists (wavBuffer : loc) (s' : state) (out : list byte),
    generateSpeech healthy (js "hello") (js "api-key") empty_state
    = (Normal (Some wavBuffer), s') /\
    heap s' !! wavBuffer = Some out /\
    drop 44 out = map byte_of_Z [1; 2; 3; 4]%Z /\
    getUint32 out 24 = 24000%Z.
Proof.
  destruct (generateSpeech_encodes_decoded_audio healthy (js "hello") (js "api-key")
              empty_state (Response 200 None (Some audio_json)) audio_json
              (JStr (js "AQIDBA==")) [1; 2; 3; 4]%Z
              eq_refl eq_refl eq_refl eq_refl eq_refl eq_refl)
    as (w & s' & out & Hrun & Hout & _ & Hdata & _ & _ & Hrate & _).
  exists w, s', out. exact (conj Hrun (conj Hout (conj Hdata Hrate))).
Defined.


(** An answer with a text part first and the audio second: nothing is
    found at the audio path. *)
Lemma audio_path_reads_first_part_witness :
  audio_path audio_in_second_part = None.
Proof.
  unfold audio_in_second_part.
  set (second := JObj [(js "inlineData", JObj [(js "data", JStr (js "AQIDBA=="))])]).
  set (first := JObj [(js "text", JStr (js "hi"))]).
  set (content := JObj [(js "parts", JArr [first; second])]).
  set (candidate := JObj [(js "content", content)]).
  rewrite (audio_path_reads_first_part [(js "candidates", JArr [candidate])]
             candidate [] content first [second] eq_refl eq_refl eq_refl).
  reflexivity.
Defined.

Lemma sendVoiceMessage_outcome_witness :
  let s := State {[ 1%positive := example_wav ]} [] in
  let run := sendVoiceMessage delivery_refused (Some (JNum 7)) 1%positive (js "bot-token") s in
  heap run.2 = heap s /\
  run.1 = Throw (TelegramApiError 400).
Proof.
  assert (Hv : heap (State {[ 1%positive := example_wav ]} []) !! 1%positive
               = Some example_wav) by apply lookup_singleton_eq.
  destruct (sendVoiceMessage_outcome delivery_refused (Some (JNum 7)) 1%positive (js "bot-token") _ _ Hv)
    as (_ & Hsent).
  destruct (Hsent eq_refl) as (Hh & _ & _ & Hthrow & _).
  exact (conj Hh (Hthrow eq_refl)).
Defined.

Lemma handleMessage_throws_only_failed_notification_witness :
  let run := handleMessage notifications_down (message_json hello) env0 empty_state in
  exists e0 pre,
    emitted empty_state run.2
    = pre ++ [ConsoleError (LogErrorHandlingMessage e0);
              Fetch (notify env0 hello generic_error_text) (Rejected (NetworkError 0))].
Proof.
  assert (Hthrow : (handleMessage notifications_down (message_json hello) env0 empty_state).1
                   = Throw (NetworkError 0)) by (vm_compute; reflexivity).
  destruct (handleMessage_throws_only_failed_notification notifications_down
              (message_json hello) env0 empty_state _ Hthrow)
    as [(Hnull & _)|(chat & e0 & pre & Hchat & _ & Hev & _)].
  - discriminate Hnull.
  - vm_compute in Hchat. injection Hchat as <-.
    exists e0, pre. exact Hev.
Defined.

Lemma synthesis_then_upload_or_failure_witness :
  let run := handleMessage synthesis_down (message_json hello) env0 empty_state in
  exists r0 rest,
    emitted empty_state run.2
    = Fetch (notify env0 hello processing_text) (Resolved r0)
      :: Fetch (GeminiGenerateContent (js "api-key") (js "hello")) (Rejected (NetworkError 0))
      :: rest.
Proof.
  assert (Hin : In (Fetch (GeminiGenerateContent (js "api-key") (js "hello"))
                          (Rejected (NetworkError 0)))
                  (emitted empty_state
                     (handleMessage synthesis_down (message_json hello) env0 empty_state).2))
    by (vm_compute; auto 10).
  destruct (synthesis_then_upload_or_failure synthesis_down hello env0 empty_state _ _ _ Hin)
    as (r0 & rest & Hev & _).
  exists r0, rest. exact Hev.
Defined.

Lemma uploaded_voice_is_encoded_audio_witness :
  exists binary,
    example_wav = wav_header_layout (length binary) 24000 1 ++ map byte_of_Z binary.
Proof.
  assert (Hin : In (Fetch (TelegramSendVoice (js "bot-token") (Some (JNum 7)) example_wav)
                          (Resolved (Response 200 (Some (js "<html>")) None)))
                  (emitted empty_state
                     (handleMessage upload_garbled (message_json hello) env0 empty_state).2))
    by (vm_compute; auto 10).
  destruct (uploaded_voice_is_encoded_audio upload_garbled hello env0 empty_state
              _ _ _ _ Hin)
    as (t & r0 & rs & data & b64 & binary & rest & _ & _ & _ & _ & _ & _ & Hv & _).
  exists binary. exact Hv.
Defined.

(** An upload answered 200 with a body that is not JSON: the user is told
    that an error occurred. *)
Lemma failed_upload_notifies_failure_witness :
  let run := handleMessage upload_garbled (message_json hello) env0 empty_state in
  exists pre res2,
    emitted empty_state run.2
    = pre ++ [ConsoleError (LogErrorHandlingMessage BodyError);
              Fetch (notify env0 hello generic_error_text) res2].
Proof.
  assert (Hin : In (Fetch (TelegramSendVoice (js "bot-token") (Some (JNum 7)) example_wav)
                          (Resolved (Response 200 (Some (js "<html>")) None)))
                  (emitted empty_state
                     (handleMessage upload_garbled (message_json hello) env0 empty_state).2))
    by (vm_compute; auto 10).
  destruct (failed_upload_notifies_failure upload_garbled hello env0 empty_state
              _ _ _ _ Hin eq_refl) as (pre & res2 & Hev & _).
  exists pre, res2. exact Hev.
Defined.

Lemma handleMessage_frame_witness :
  let s := State {[ 9%positive := [xff] ]} [] in
  heap (handleMessage healthy (message_json hello) env0 s).2 !! 9%positive = Some [xff].
Proof.
  destruct (handleMessage_frame healthy hello env0 (State {[ 9%positive := [xff] ]} []))
    as (Hframe & _).
  apply Hframe. apply lookup_singleton_eq.
Defined.

Lemma fetch_unparsable_body_witness :
  fetch healthy post_garbage env0 empty_state
  = (Normal (Reply_ (js "Error processing request") 500),
     State (heap empty_state) (trace empty_state ++ [ConsoleError (LogError BodyError)])).
Proof.
  apply (fetch_unparsable_body healthy post_garbage env0 empty_state); reflexivity.
Defined.

Lemma fetch_requests_only_for_posted_message_witness :
  method (post hello) = js "POST" /\
  exists update message,
    json_body (post hello) = Some update /\
    get_prop (js "message") update = Some message /\
    truthy (Some message) = true /\
    nullish (get_prop (js "chat") message) = false.
Proof.
  apply (fetch_requests_only_for_posted_message healthy (post hello) env0 empty_state).
  vm_compute. reflexivity.
Defined.

Lemma fetch_effects_of_posted_message_witness :
  (fetch notifications_down (post hello) env0 empty_state).1
  = Normal (reply_after (handleMessage notifications_down (message_json hello) env0 empty_state).1).
Proof.
  destruct (fetch_effects_of_posted_message notifications_down (post hello) env0 empty_state
              (JObj [(js "message", message_json hello)]) (message_json hello)
              eq_refl eq_refl eq_refl eq_refl) as (H & _).
  exact H.
Defined.

(** A refused synthesis is acknowledged with 200 all the same. *)
Lemma fetch_acknowledges_when_notifications_get_through_witness :
  (fetch synthesis_refused (post hello) env0 empty_state).1
  = Normal (Reply_ (js "OK") 200).
Proof.
  apply (fetch_acknowledges_when_notifications_get_through synthesis_refused (post hello)
           env0 empty_state (JObj [(js "message", message_json hello)])).
  - intros h tok c txt e. discriminate.
  - reflexivity.
  - reflexivity.
  - discriminate.
  - intros message Hmessage _. vm_compute in Hmessage. injection Hmessage as <-.
    reflexivity.
Defined.

(** "/start" with a space in front is not the command: it is processed
    as a text. *)
Lemma handleMessage_first_notification_witness :
  let m := {| chat := {| id := 7 |}; text := Some (js " /start") |} in
  exists res rest,
    emitted empty_state (handleMessage healthy (message_json m) env0 empty_state).2
    = Fetch (notify env0 m processing_text) res :: rest.
Proof.
  exact (handleMessage_first_notification healthy
           (message_json {| chat := {| id := 7 |}; text := Some (js " /start") |})
           (JObj [(js "id", JNum 7)]) env0 empty_state eq_refl eq_refl).
Defined.
